(** * The multi-agent orchestrator: routing, pipeline, conversation log

    A shallow embedding of [agents/agent_orchestrator.py],
    [utils/simple_model_manager.py] and [agents/research/research_agent.py],
    and the properties of the request router, of the three-stage pipeline and
    of the conversation history that the design document states.

    Conventions of the embedding.
    - A Python [str] is a [string]; the request texts considered are ASCII, on
      which [str.lower] only moves the letters A-Z.
    - A Python value is a [pyval]; a [dict] whose insertion order is observable
      is an association list with unique keys ([pydict]).
    - A call that may raise returns a [res]: [Ok v] or [Raise e]; a
      [try]/[except Exception] is [try_except].
    - The agents and the text-generation pipelines are collaborators of the
      orchestrator: their behaviour during one run is an argument of the run. *)

From Stdlib Require Import ZArith QArith Ascii String List Lia Bool DecimalString.
From stdpp Require Import base tactics option list strings gmap.

Set Warnings "-register-all".

(** ** Python strings *)

Module PyStr.

(** [str.lower] on one ASCII character. *)
Definition lower_ascii (c : ascii) : ascii :=
  let n := N_of_ascii c in
  if ((65 <=? n) && (n <=? 90))%N then ascii_of_N (n + 32) else c.

(** [s.lower()] *)
Fixpoint lower (s : string) : string :=
  match s with
  | EmptyString => EmptyString
  | String c s' => String (lower_ascii c) (lower s')
  end.

(** [s.startswith(p)] *)
Fixpoint startswith (p s : string) : bool :=
  match p, s with
  | EmptyString, _ => true
  | String a p', String b s' => if ascii_dec a b then startswith p' s' else false
  | String _ _, EmptyString => false
  end.

(** [needle in hay] on strings: [needle] occurs at some position of [hay]. *)
Fixpoint contains (needle hay : string) : bool :=
  startswith needle hay ||
  match hay with
  | EmptyString => false
  | String _ hay' => contains needle hay'
  end.

(** The mathematical reading of substring containment. *)
Definition substring_of (needle hay : string) : Prop :=
  ∃ before after, hay = before +:+ needle +:+ after.

(** [any(k in text for k in keywords)] *)
Definition any_in (keywords : list string) (text : string) : bool :=
  existsb (fun k => contains k text) keywords.

(** [str.isspace] on one ASCII character. *)
Definition is_space (c : ascii) : bool :=
  let n := N_of_ascii c in
  ((9 <=? n) && (n <=? 13) || (28 <=? n) && (n <=? 32))%N.

Fixpoint lstrip (s : string) : string :=
  match s with
  | EmptyString => EmptyString
  | String c s' => if is_space c then lstrip s' else s
  end.

(** [s.strip()], for ASCII text (the white space removed is the ASCII one). *)
Definition strip (s : string) : string :=
  String.rev (lstrip (String.rev (lstrip s))).

(** [s[n:]] for [0 <= n], on ASCII text (one character is one byte). *)
Fixpoint drop_prefix (n : nat) (s : string) : string :=
  match n, s with
  | O, _ => s
  | S n', String _ s' => drop_prefix n' s'
  | S _, EmptyString => EmptyString
  end.

(** [bool(s)]: a string is true when it is not empty. *)
Definition truthy (s : string) : bool :=
  match s with EmptyString => false | _ => true end.

(** Whether a text is ASCII: every character below 128. On such a text a
    character is a byte, so the length, the slices, [strip], [title] and
    [lower] of this module are those of Python's [str]; a property that shows
    the outcome of one of them is stated for ASCII text. *)
Fixpoint is_ascii (s : string) : bool :=
  match s with
  | EmptyString => true
  | String c s' => (N_of_ascii c <? 128)%N && is_ascii s'
  end.

(** [s.replace(old, new)] for two single characters. *)
Fixpoint replace_char (old new : ascii) (s : string) : string :=
  match s with
  | EmptyString => EmptyString
  | String c s' =>
      String (if ascii_dec c old then new else c) (replace_char old new s')
  end.

Definition is_lower (c : ascii) : bool :=
  let n := N_of_ascii c in ((97 <=? n) && (n <=? 122))%N.

Definition is_upper (c : ascii) : bool :=
  let n := N_of_ascii c in ((65 <=? n) && (n <=? 90))%N.

(** [str.upper] on one ASCII character. *)
Definition upper_ascii (c : ascii) : ascii :=
  if is_lower c then ascii_of_N (N_of_ascii c - 32) else c.

(** [s.title()] on ASCII text: a letter that follows a letter is lower-cased,
    any other letter is upper-cased. *)
Fixpoint title_from (previous_is_cased : bool) (s : string) : string :=
  match s with
  | EmptyString => EmptyString
  | String c s' =>
      if is_lower c then
        String (if previous_is_cased then c else upper_ascii c) (title_from true s')
      else if is_upper c then
        String (if previous_is_cased then lower_ascii c else c) (title_from true s')
      else String c (title_from false s')
  end.

Definition title (s : string) : string := title_from false s.

(** [str(n)] for a natural number. *)
Definition decimal (n : nat) : string := NilEmpty.string_of_uint (Nat.to_uint n).

(** The line feed and the double quote, as strings. *)
Definition lf : string := String "010" EmptyString.
Definition dq : string := String "034" EmptyString.

(** [re.findall(pattern, s)] for a pattern without special characters, not
    empty: the occurrences from left to right, none overlapping another.
    [skip] counts the characters still covered by the last occurrence. *)
Fixpoint findall_from (pattern : string) (skip : nat) (s : string) : list string :=
  match s with
  | EmptyString => []
  | String _ s' =>
      match skip with
      | S k => findall_from pattern k s'
      | O =>
          if startswith pattern s
          then pattern :: findall_from pattern (String.length pattern - 1) s'
          else findall_from pattern 0 s'
      end
  end.

Definition findall (pattern s : string) : list string := findall_from pattern 0 s.

(** [re.sub(pattern, '', s)] for such a pattern: the text between the
    occurrences. *)
Fixpoint remove_from (pattern : string) (skip : nat) (s : string) : string :=
  match s with
  | EmptyString => EmptyString
  | String c s' =>
      match skip with
      | S k => remove_from pattern k s'
      | O =>
          if startswith pattern s
          then remove_from pattern (String.length pattern - 1) s'
          else String c (remove_from pattern 0 s')
      end
  end.

Definition remove_all (pattern s : string) : string := remove_from pattern 0 s.

End PyStr.

(** ** Python values, exceptions and dictionaries *)

Module Py.

(** The values that cross the boundaries modelled here. A [float] is only
    carried around, never computed with: it is kept as the rational its
    literal denotes. A [dict] has [str] keys and keeps its insertion order. *)
Inductive pyval : Type :=
  | VNone
  | VBool (b : bool)
  | VInt (z : Z)
  | VFloat (q : Q)
  | VStr (s : string)
  | VList (l : list pyval)
  | VDict (d : list (string * pyval)).

Abbreviation pydict := (list (string * pyval)).

(** An instance of a subclass of [Exception]: its class name and [str(e)]. *)
Inductive exn : Type := Exception (cls : string) (msg : string).

(** [str(e)] *)
Definition str_exn (e : exn) : string := let 'Exception _ msg := e in msg.

(** The outcome of a call: a value, or an exception on its way up. *)
Inductive res (A : Type) : Type :=
  | Ok (a : A)
  | Raise (e : exn).
Arguments Ok {A} a.
Arguments Raise {A} e.

#[global] Instance res_ret : MRet res := @Ok.
#[global] Instance res_bind : MBind res := λ A B k r,
  match r with Ok a => k a | Raise e => Raise e end.

(** [try: body  except Exception as e: handler(e)] for a body without effects. *)
Definition res_try {A} (body : res A) (handler : exn → res A) : res A :=
  match body with Ok a => Ok a | Raise e => handler e end.

(** *** [dict] as an association list with unique keys *)

Section Dict.
Context {V : Type}.

(** [d.get(k)], [None] standing for an absent key. *)
Fixpoint dict_get (d : list (string * V)) (k : string) : option V :=
  match d with
  | [] => None
  | (k', v) :: d' => if decide (k = k') then Some v else dict_get d' k
  end.

(** [d.get(k, default)] *)
Definition dict_get_default (d : list (string * V)) (k : string) (default : V) : V :=
  match dict_get d k with Some v => v | None => default end.

(** [d[k] = v]: an existing key keeps its place, a new key goes last. *)
Fixpoint dict_set (d : list (string * V)) (k : string) (v : V) : list (string * V) :=
  match d with
  | [] => [(k, v)]
  | (k', v') :: d' =>
      if decide (k = k') then (k, v) :: d' else (k', v') :: dict_set d' k v
  end.

(** [list(d.keys())], in insertion order. *)
Definition dict_keys (d : list (string * V)) : list string := d.*1.

(** [k in d] *)
Definition dict_contains (d : list (string * V)) (k : string) : bool :=
  match dict_get d k with Some _ => true | None => false end.

End Dict.

(** *** Operations on values, with the exceptions Python raises *)

Definition type_name (v : pyval) : string :=
  match v with
  | VNone => "NoneType" | VBool _ => "bool" | VInt _ => "int" | VFloat _ => "float"
  | VStr _ => "str" | VList _ => "list" | VDict _ => "dict"
  end.

Definition TypeError (msg : string) : exn := Exception "TypeError" msg.

Definition not_subscriptable {A} (v : pyval) : res A :=
  Raise (TypeError ("'" +:+ type_name v +:+ "' object is not subscriptable")).

(** [v[0]] *)
Definition getitem_0 (v : pyval) : res pyval :=
  match v with
  | VList (x :: _) => Ok x
  | VList [] => Raise (Exception "IndexError" "list index out of range")
  | VStr (String c _) => Ok (VStr (String c EmptyString))
  | VStr EmptyString => Raise (Exception "IndexError" "string index out of range")
  | VDict _ => Raise (Exception "KeyError" "0")
  | _ => not_subscriptable v
  end.

(** [v == VStr k] for the test [k in list] *)
Definition is_str (k : string) (v : pyval) : bool :=
  match v with VStr s => bool_decide (s = k) | _ => false end.

(** [k in v] for a string [k] *)
Definition contains_str (k : string) (v : pyval) : res bool :=
  match v with
  | VDict d => Ok (dict_contains d k)
  | VList l => Ok (existsb (is_str k) l)
  | VStr s => Ok (PyStr.contains k s)
  | _ => Raise (TypeError ("argument of type '" +:+ type_name v +:+ "' is not iterable"))
  end.

(** [v[k]] for a string [k] *)
Definition getitem_str (v : pyval) (k : string) : res pyval :=
  match v with
  | VDict d =>
      match dict_get d k with
      | Some x => Ok x
      | None => Raise (Exception "KeyError" ("'" +:+ k +:+ "'"))
      end
  | VList _ => Raise (TypeError "list indices must be integers or slices, not str")
  | VStr _ => Raise (TypeError "string indices must be integers, not 'str'")
  | _ => not_subscriptable v
  end.

(** [v[n:]] for [0 <= n] *)
Definition slice_from (v : pyval) (n : nat) : res pyval :=
  match v with
  | VStr s => Ok (VStr (PyStr.drop_prefix n s))
  | VList l => Ok (VList (drop n l))
  | VDict _ => Raise (TypeError "unhashable type: 'slice'")
  | _ => not_subscriptable v
  end.

(** [v.strip()] *)
Definition strip_method (v : pyval) : res pyval :=
  match v with
  | VStr s => Ok (VStr (PyStr.strip s))
  | _ => Raise (Exception "AttributeError"
                  ("'" +:+ type_name v +:+ "' object has no attribute 'strip'"))
  end.

(** [l[start:]] on a list, for any integer [start]: a negative [start] counts
    from the end, and both ends are clamped. *)
Definition list_slice_from {A} (l : list A) (start : Z) : list A :=
  let n := Z.of_nat (length l) in
  let start := if (start <? 0)%Z then Z.max (start + n) 0 else Z.min start n in
  drop (Z.to_nat start) l.

(** [v.get(k, default)] *)
Definition get_method (v : pyval) (k : string) (default : pyval) : res pyval :=
  match v with
  | VDict d => Ok (dict_get_default d k default)
  | _ => Raise (Exception "AttributeError"
                  ("'" +:+ type_name v +:+ "' object has no attribute 'get'"))
  end.

(** [bool(v)] *)
Definition truth (v : pyval) : bool :=
  match v with
  | VNone => false
  | VBool b => b
  | VInt z => negb (z =? 0)%Z
  | VFloat q => negb (Qnum q =? 0)%Z
  | VStr s => PyStr.truthy s
  | VList l => match l with [] => false | _ => true end
  | VDict d => match d with [] => false | _ => true end
  end.

(** The characters of a string, each a string of length one. *)
Fixpoint chars (s : string) : list pyval :=
  match s with
  | EmptyString => []
  | String c s' => VStr (String c EmptyString) :: chars s'
  end.

(** [iter(v)], run to the end: the elements a [for] loop over [v] visits. *)
Definition iterate (v : pyval) : res (list pyval) :=
  match v with
  | VList l => Ok l
  | VStr s => Ok (chars s)
  | VDict d => Ok (VStr <$> d.*1)
  | _ => Raise (TypeError ("'" +:+ type_name v +:+ "' object is not iterable"))
  end.

(** [len(v)] *)
Definition len (v : pyval) : res Z :=
  match v with
  | VList l => Ok (Z.of_nat (length l))
  | VStr s => Ok (Z.of_nat (String.length s))
  | VDict d => Ok (Z.of_nat (length d))
  | _ => Raise (TypeError ("object of type '" +:+ type_name v +:+ "' has no len()"))
  end.

(** [left + right] where [left] is a string. *)
Definition concat_str (left : string) (right : pyval) : res string :=
  match right with
  | VStr s => Ok (left +:+ s)
  | _ => Raise (TypeError ("can only concatenate str (not " +:+ PyStr.dq
                           +:+ type_name right +:+ PyStr.dq +:+ ") to str"))
  end.

(** [a, b = s] for a string [s]: its two characters. *)
Definition unpack_pair (s : string) : res (string * string) :=
  match s with
  | String a (String b EmptyString) =>
      Ok (String a EmptyString, String b EmptyString)
  | String _ (String _ (String _ _)) =>
      Raise (Exception "ValueError" "too many values to unpack (expected 2)")
  | String _ EmptyString =>
      Raise (Exception "ValueError"
               "not enough values to unpack (expected 2, got 1)")
  | EmptyString =>
      Raise (Exception "ValueError"
               "not enough values to unpack (expected 2, got 0)")
  end.

(** [re.findall(pattern, v)] and [re.sub(pattern, '', v)]: [v] must be a
    string. *)
Definition not_a_string {A} (v : pyval) : res A :=
  Raise (TypeError ("expected string or bytes-like object, got '"
                    +:+ type_name v +:+ "'")).

Definition re_findall (pattern : string) (v : pyval) : res (list string) :=
  match v with VStr s => Ok (PyStr.findall pattern s) | _ => not_a_string v end.

Definition re_remove (pattern : string) (v : pyval) : res string :=
  match v with VStr s => Ok (PyStr.remove_all pattern s) | _ => not_a_string v end.

(** A loop that builds a list, one element per round, and stops at the first
    round that raises. *)
Fixpoint for_each {A B} (f : A → res B) (l : list A) : res (list B) :=
  match l with
  | [] => Ok []
  | x :: l' => y ← f x; ys ← for_each f l'; mret (y :: ys)
  end.

End Py.

(** What an agent asks of its model manager: the one method
    [generate_response(model_type=..., prompt=..., **kwargs)]. *)
Class ModelManager (M : Type) : Type :=
  mm_generate_response : M → string → string → Py.pydict → Py.res Py.pyval.

(** What the orchestrator asks of its model manager at start-up: the method
    [load_model(model_name, model_type)], which answers with a Boolean or
    raises, and leaves the manager in a new state. *)
Class ModelLoader (M : Type) : Type :=
  mm_load_model : M → string → string → Py.res bool * M.

(** ** [utils/simple_model_manager.py] *)

Module SimpleModelManager.
Import Py.

(** A loaded text-generation pipeline, called as
    [pipe(prompt, max_new_tokens=n)]: it returns some value or raises. *)
Definition pipeline : Type := string → pyval → res pyval.

(** The object: [self.pipelines], a dict from model type to pipeline. *)
Record t : Type := { pipelines : gmap string pipeline }.

(** [__init__] *)
Definition init : t := {| pipelines := ∅ |}.

Section GenerateResponse.
(** [str(v)] of a value: its printed form is left open. *)
Variable py_str : pyval → string.

(** The body of the [try] block of [generate_response]. [len(prompt)] is
    written as the number of bytes of [prompt], the number of its characters
    when it is ASCII. *)
Definition generate_body (pipe : pipeline) (prompt : string) (kwargs : pydict)
  : res pyval :=
  result ← pipe prompt (dict_get_default kwargs "max_tokens" (VInt 512));
  r0 ← getitem_0 result;
  has_generated_text ← contains_str "generated_text" r0;
  if has_generated_text : bool then
    r0 ← getitem_0 result;
    text ← getitem_str r0 "generated_text";
    tail ← slice_from text (String.length prompt);
    strip_method tail
  else
    r0 ← getitem_0 result;
    has_text ← contains_str "text" r0;
    if has_text : bool then
      r0 ← getitem_0 result;
      text ← getitem_str r0 "text";
      tail ← slice_from text (String.length prompt);
      strip_method tail
    else
      r0 ← getitem_0 result;
      mret (VStr (py_str r0)).

(** [generate_response(self, model_type, prompt, **kwargs)] *)
Definition generate_response (self : t) (model_type prompt : string)
    (kwargs : pydict) : res pyval :=
  match pipelines self !! model_type with
  | None => Ok (VStr ("Model " +:+ model_type +:+ " not available"))
  | Some pipe =>
      res_try (generate_body pipe prompt kwargs)
              (λ e, Ok (VStr ("Error: " +:+ str_exn e)))
  end.

(** The manager behind the interface the agents use. *)
Definition as_model_manager : ModelManager t := generate_response.

End GenerateResponse.

(** A manager without any loaded pipeline, and one whose only pipeline
    always raises. *)
Definition out_of_memory : exn := Exception "RuntimeError" "CUDA out of memory".

Definition broken_pipe : pipeline := λ _ _, Raise out_of_memory.

Definition one_broken_model : t := {| pipelines := {[ "phi3" := broken_pipe ]} |}.

(** [load_model(self, model_name, model_type)]. The constructor
    [pipeline("text-generation", model=model_name, ...)] of the transformers
    library is the argument [build]: it returns a pipeline or raises. The
    method returns its Boolean and the object as it leaves it. *)
Definition load_model (build : string → res pipeline) (self : t)
    (model_name model_type : string) : res bool * t :=
  match build model_name with
  | Ok pipe =>
      (Ok true, {| pipelines := <[model_type := pipe]> (pipelines self) |})
  | Raise e => (Ok false, self)
  end.

(** The manager behind the interface the orchestrator loads models with. *)
Definition as_model_loader (build : string → res pipeline) : ModelLoader t :=
  load_model build.

(** A pipeline that echoes the prompt and appends a completion, as a
    text-generation pipeline does by default. *)
Definition echo_pipe (completion : string) : pipeline := λ prompt _,
  Ok (VList [VDict [("generated_text", VStr (prompt +:+ completion))]]).

End SimpleModelManager.

(** ** [utils/search.py] *)

Module WebSearchManager.
Import Py.

(** The object: [self.max_results]. *)
Record t : Type := { max_results : Z }.

(** [__init__(self, max_results=10)] *)
Definition init (max_results : option Z) : t :=
  {| max_results := default 10%Z max_results |}.

(** The search client, called as
    [DDGS().text(keywords=query, max_results=n, safesearch='moderate')]:
    it returns a list of results or raises. *)
Definition backend : Type := string → Z → res (list pyval).

(** [max_results or self.max_results]: [None] and [0] are both false. *)
Definition or_default (max_results : option Z) (fallback : Z) : Z :=
  match max_results with
  | None => fallback
  | Some n => if (n =? 0)%Z then fallback else n
  end.

(** The dict appended for one result. *)
Definition record_of (result : pyval) : res pyval :=
  title ← get_method result "title" (VStr "");
  url ← get_method result "href" (VStr "");
  snippet ← get_method result "body" (VStr "");
  mret (VDict [("title", title); ("url", url); ("snippet", snippet);
               ("source", VStr "DuckDuckGo")]).

(** The body of the [try] block of [search_web]. *)
Definition search_body (ddgs : backend) (self : t) (query : string)
    (max_results : option Z) : res (list pyval) :=
  let max_results := or_default max_results (WebSearchManager.max_results self) in
  search_results ← ddgs query max_results;
  for_each record_of search_results.

(** [search_web(self, query, max_results=None)] *)
Definition search_web (ddgs : backend) (self : t) (query : string)
    (max_results : option Z) : res (list pyval) :=
  res_try (search_body ddgs self query max_results) (λ _, Ok []).

(** A client for the examples: two results for every query, the second
    without a link. *)
Definition two_hits : backend := λ query _,
  Ok [VDict [("title", VStr query); ("href", VStr "https://example.org");
             ("body", VStr "first")];
      VDict [("title", VStr "untitled page"); ("body", VStr "second")]].

End WebSearchManager.

(** ** [agents/research/research_agent.py] *)

Module ResearchAgent.
Import Py.

(** The two methods of the search manager that [conduct_research] calls,
    [async_search(query, max_results=n)] and [format_search_results(results)].
    Their bodies are not part of the sources at hand: they are taken as given,
    with the result types of the search boundary (a list of result records,
    and a text). The [WebSearchManager] of [utils/search.py] as it stands
    defines neither, so with it the first call raises an AttributeError: of
    the search managers below, the code at hand is one whose [async_search]
    always raises. *)
Record search_manager : Type := {
  async_search : string → Z → res (list pyval);
  format_search_results : list pyval → res string
}.

Record t (M : Type) : Type := {
  model_manager : M;
  search : search_manager
}.
Arguments model_manager {M} _.
Arguments search {M} _.

Definition agent_name : string := "ResearchAgent".
Definition model_type : string := "phi3".

Definition nl : string := String "010" EmptyString.

Definition system_prompt : string := "
You are a Research Agent specialized in conducting comprehensive research on any topic.
Your capabilities include:
- Web searching and information gathering
- Analyzing and synthesizing information from multiple sources
- Providing detailed, well-structured research reports
- Fact-checking and verifying information accuracy

Always provide:
1. Clear, factual information
2. Multiple perspectives when relevant
3. Source citations
4. Structured, easy-to-read reports
".

(** [format_prompt(self, query, search_results)] *)
Definition format_prompt (query search_results : string) : string :=
  let prompt := system_prompt +:+ nl +:+ nl in
  let prompt :=
    if PyStr.truthy search_results
    then prompt +:+ "Based on the following search results:" +:+ nl
                +:+ search_results +:+ nl +:+ nl
    else prompt in
  let prompt := prompt +:+ "Research Query: " +:+ query +:+ nl +:+ nl in
  let prompt := prompt +:+ "Please provide a comprehensive research report:" in
  prompt.

Section ConductResearch.
Context {M : Type} `{!ModelManager M}.

(** The body of the [try] block of [conduct_research]. *)
Definition conduct_body (self : t M) (query : string) : res pydict :=
  search_results ← async_search (search self) query 8;
  formatted_results ← format_search_results (search self) search_results;
  let prompt := format_prompt query formatted_results in
  research_report ←
    mm_generate_response (model_manager self) model_type prompt
      [("max_tokens", VInt 1024); ("temperature", VFloat (7 # 10))];
  let result : pydict :=
    [("agent", VStr agent_name);
     ("query", VStr query);
     ("research_report", research_report);
     ("sources", VList search_results);
     ("source_count", VInt (Z.of_nat (length search_results)));
     ("status", VStr "completed")] in
  mret result.

(** [conduct_research(self, query)] *)
Definition conduct_research (self : t M) (query : string) : res pydict :=
  res_try (conduct_body self query)
    (λ e, Ok [("agent", VStr agent_name);
              ("query", VStr query);
              ("error", VStr (str_exn e));
              ("status", VStr "failed")]).

End ConductResearch.

(** [search_specific_topic(self, topic, subtopics=None)], the search manager
    being a [WebSearchManager] over the client [ddgs]. *)
Definition search_specific_topic (ddgs : WebSearchManager.backend)
    (search_manager : WebSearchManager.t) (topic : string)
    (subtopics : option (list string)) : res pydict :=
  res_try
    (let all_results : list pyval := [] in
     main_results ← WebSearchManager.search_web ddgs search_manager topic None;
     let all_results := all_results ++ main_results in
     all_results ←
       match subtopics with
       | Some ((_ :: _) as subtopics) =>
           foldl (λ (acc : res (list pyval)) subtopic,
                    all_results ← acc;
                    let sub_query := topic +:+ " " +:+ subtopic in
                    sub_results ← WebSearchManager.search_web ddgs search_manager
                                    sub_query (Some 3%Z);
                    mret (all_results ++ sub_results))
                 (Ok all_results) subtopics
       | _ => mret all_results
       end;
     mret [("topic", VStr topic);
           ("subtopics", VList (VStr <$> default [] subtopics));
           ("results", VList all_results);
           ("total_sources", VInt (Z.of_nat (length all_results)))])
    (λ e, Ok [("error", VStr (str_exn e))]).

(** The search manager [__init__] builds, [WebSearchManager()], with
    [utils/search.py] as it stands: the class has neither method, so looking
    either one up raises. *)
Definition no_attribute (name : string) : exn :=
  Exception "AttributeError"
    ("'WebSearchManager' object has no attribute '" +:+ name +:+ "'").

Definition web_search_manager : search_manager :=
  {| async_search := λ _ _, Raise (no_attribute "async_search");
     format_search_results := λ _, Raise (no_attribute "format_search_results") |}.

(** A search manager that finds nothing. *)
Definition quiet_search : search_manager :=
  {| async_search := λ _ _, Ok []; format_search_results := λ _, Ok "" |}.

End ResearchAgent.

(** ** [agents/documentation/documentation_agent.py] *)

Module DocumentationAgent.
Import Py PyStr.

Record t (M : Type) : Type := { model_manager : M }.
Arguments model_manager {M} _.

Definition agent_name : string := "DocumentationAgent".
Definition model_type : string := "mistral".

Definition system_prompt : string := "
You are a Documentation Agent specialized in creating comprehensive, well-structured documentation.
Your capabilities include:
- Converting research findings into clear documentation
- Creating technical documentation with proper formatting
- Summarizing complex information into digestible content
- Organizing information with clear hierarchies and sections

Always provide:
1. Well-structured documents with clear headings
2. Proper formatting (markdown when appropriate)
3. Executive summaries for complex topics
4. Clear, concise language
5. Logical information flow
".

Section Methods.
(** [str(v)] of a value: its printed form is left open. *)
Variable py_str : pyval → string.
Context {M : Type} `{!ModelManager M}.

(** A value inside an f-string: a string stands for itself, any other value
    for its printed form. *)
Definition fmt (v : pyval) : string :=
  match v with VStr s => s | _ => py_str v end.

(** [format_prompt(self, task, content, doc_type)] *)
Definition format_prompt (task : string) (content : pyval) (doc_type : string)
  : string :=
  let prompt := system_prompt +:+ lf +:+ lf in
  let prompt := prompt +:+ "Documentation Task: " +:+ task +:+ lf in
  let prompt := prompt +:+ "Document Type: " +:+ doc_type +:+ lf +:+ lf in
  let prompt := prompt +:+ "Source Content:" +:+ lf +:+ fmt content +:+ lf +:+ lf in
  let prompt := prompt +:+ "Please create comprehensive documentation:" in
  prompt.

(** The loop over [enumerate(sources, 1)] of [_format_final_document]. *)
Fixpoint source_lines (i : nat) (sources : list pyval) (formatted_doc : string)
  : res string :=
  match sources with
  | [] => Ok formatted_doc
  | source :: sources' =>
      source_title ← get_method source "title" (VStr "Untitled");
      source_url ← get_method source "url" (VStr "#");
      source_lines (S i) sources'
        (formatted_doc +:+ decimal i +:+ ". [" +:+ fmt source_title +:+ "]("
         +:+ fmt source_url +:+ ")" +:+ lf)
  end.

(** The line that ends every document. *)
Definition footer : string :=
  lf +:+ lf +:+ "---" +:+ lf +:+ "*Generated by " +:+ agent_name +:+ "*".

(** [_format_final_document(self, content, sources, doc_type)] *)
Definition _format_final_document (content sources : pyval) (doc_type : string)
  : res string :=
  let formatted_doc :=
    "# " +:+ title (replace_char "_" " " doc_type) +:+ lf +:+ lf in
  formatted_doc ← concat_str formatted_doc content;
  formatted_doc ←
    (if truth sources then
       let formatted_doc := formatted_doc +:+ lf +:+ lf +:+ "## Sources" +:+ lf +:+ lf in
       items ← iterate sources;
       source_lines 1 items formatted_doc
     else mret formatted_doc);
  mret (formatted_doc +:+ footer).

(** The body of the [try] block of [create_documentation]. *)
Definition create_body (self : t M) (research_data : pydict) (doc_type : string)
  : res pydict :=
  let '(content, sources) :=
    if dict_contains research_data "research_report"
    then (dict_get_default research_data "research_report" VNone,
          dict_get_default research_data "sources" (VList []))
    else (VStr (py_str (VDict research_data)), VList []) in
  let task := "Create a " +:+ doc_type +:+ " document" in
  let prompt := format_prompt task content doc_type in
  documentation ←
    mm_generate_response (model_manager self) model_type prompt
      [("max_tokens", VInt 1024); ("temperature", VFloat (5 # 10))];
  final_doc ← _format_final_document documentation sources doc_type;
  sources_used ← len sources;
  let result : pydict :=
    [("agent", VStr agent_name);
     ("document_type", VStr doc_type);
     ("documentation", VStr final_doc);
     ("source_research", dict_get_default research_data "query" (VStr ""));
     ("sources_used", VInt sources_used);
     ("status", VStr "completed")] in
  mret result.

(** [create_documentation(self, research_data, doc_type="research_report")] *)
Definition create_documentation (self : t M) (research_data : pydict)
    (doc_type : string) : res pydict :=
  res_try (create_body self research_data doc_type)
    (λ e, Ok [("agent", VStr agent_name);
              ("error", VStr (str_exn e));
              ("status", VStr "failed")]).

(** The body of the [try] block of [summarize_content]. [len(content)] is the
    number of characters of [content], written here as its number of bytes:
    the two agree on ASCII text. *)
Definition summarize_body (self : t M) (content summary_type : string)
  : res pydict :=
  let prompt := system_prompt +:+ lf +:+ lf in
  let prompt := prompt +:+ "Create a " +:+ summary_type
                +:+ " summary of the following content:" +:+ lf +:+ lf in
  let prompt := prompt +:+ content +:+ lf +:+ lf in
  let prompt := prompt +:+ "Provide a clear, concise " +:+ summary_type
                +:+ " summary:" in
  summary ←
    mm_generate_response (model_manager self) model_type prompt
      [("max_tokens", VInt 512); ("temperature", VFloat (4 # 10))];
  summary_length ← len summary;
  mret [("agent", VStr agent_name);
        ("summary_type", VStr summary_type);
        ("summary", summary);
        ("original_length", VInt (Z.of_nat (String.length content)));
        ("summary_length", VInt summary_length);
        ("status", VStr "completed")].

(** [summarize_content(self, content, summary_type="executive")] *)
Definition summarize_content (self : t M) (content summary_type : string)
  : res pydict :=
  res_try (summarize_body self content summary_type)
    (λ e, Ok [("error", VStr (str_exn e)); ("status", VStr "failed")]).

End Methods.

End DocumentationAgent.

(** ** [agents/coding/coding_agent.py] *)

Module CodingAgent.
Import Py PyStr.

Record t (M : Type) : Type := { model_manager : M }.
Arguments model_manager {M} _.

Definition agent_name : string := "CodingAgent".
Definition model_type : string := "qwen".

Definition system_prompt : string := "
You are a Coding Agent specialized in software development and code generation.
Your capabilities include:
- Writing clean, efficient code in multiple programming languages
- Code review and optimization suggestions
- Debugging and error resolution
- Creating complete project structures
- Generating documentation for code

Always provide:
1. Clean, well-commented code
2. Proper error handling
3. Best practices and conventions
4. Performance considerations
5. Security considerations when applicable

Programming languages you excel at: Python, JavaScript, Java, C++, Go, Rust, and more.
".

(** The pattern of [_extract_code_blocks] and [_extract_explanation]: six
    backquotes. *)
Definition pattern : string := "``````".

(** [format_coding_prompt(self, task, language, requirements)] *)
Definition format_coding_prompt (task language requirements : string) : string :=
  let prompt := system_prompt +:+ lf +:+ lf in
  let prompt := prompt +:+ "Coding Task: " +:+ task +:+ lf in
  let prompt := prompt +:+ "Programming Language: " +:+ language +:+ lf in
  let prompt :=
    if truthy requirements
    then prompt +:+ "Requirements: " +:+ requirements +:+ lf
    else prompt in
  let prompt := prompt +:+ lf
                +:+ "Please provide the complete code solution with explanations:" in
  prompt.

(** The loop over [enumerate(matches)] of [_extract_code_blocks]. *)
Fixpoint code_blocks_from (i : nat) (matches : list string) : res (list pyval) :=
  match matches with
  | [] => Ok []
  | m :: matches' =>
      '(language, code) ← unpack_pair m;
      let block :=
        VDict [("id", VInt (Z.of_nat i + 1));
               ("language", VStr (if truthy language then language else "text"));
               ("code", VStr (strip code))] in
      blocks ← code_blocks_from (S i) matches';
      mret (block :: blocks)
  end.

(** [_extract_code_blocks(self, response)] *)
Definition _extract_code_blocks (response : pyval) : res (list pyval) :=
  matches ← re_findall pattern response;
  code_blocks_from 0 matches.

(** [_extract_explanation(self, response)] *)
Definition _extract_explanation (response : pyval) : res string :=
  explanation ← re_remove pattern response;
  mret (strip explanation).

Section Methods.
Context {M : Type} `{!ModelManager M}.

(** The body of the [try] block of [generate_code]. *)
Definition generate_body (self : t M) (task language requirements : string)
  : res pydict :=
  let prompt := format_coding_prompt task language requirements in
  code_response ←
    mm_generate_response (model_manager self) model_type prompt
      [("max_tokens", VInt 1024); ("temperature", VFloat (3 # 10))];
  code_blocks ← _extract_code_blocks code_response;
  explanation ← _extract_explanation code_response;
  mret [("agent", VStr agent_name);
        ("task", VStr task);
        ("language", VStr language);
        ("code_blocks", VList code_blocks);
        ("explanation", VStr explanation);
        ("full_response", code_response);
        ("requirements", VStr requirements);
        ("status", VStr "completed")].

(** [generate_code(self, task, language="python", requirements="")] *)
Definition generate_code (self : t M) (task language requirements : string)
  : res pydict :=
  res_try (generate_body self task language requirements)
    (λ e, Ok [("agent", VStr agent_name);
              ("task", VStr task);
              ("error", VStr (str_exn e));
              ("status", VStr "failed")]).

(** The prompt of [review_code]: the code under review is not part of it. *)
Definition review_prompt (language : string) : string :=
  let prompt := system_prompt +:+ lf +:+ lf in
  let prompt := prompt +:+ "Please review the following " +:+ language
                +:+ " code and provide:" +:+ lf in
  let prompt := prompt +:+ "1. Code quality assessment" +:+ lf in
  let prompt := prompt +:+ "2. Optimization suggestions" +:+ lf in
  let prompt := prompt +:+ "3. Security considerations" +:+ lf in
  let prompt := prompt +:+ "4. Best practices recommendations" +:+ lf +:+ lf in
  let prompt := prompt +:+ "Code to review:" +:+ lf +:+ "``````" +:+ lf +:+ lf in
  let prompt := prompt +:+ "Provide detailed code review:" in
  prompt.

(** [review_code(self, code, language="python")] *)
Definition review_code (self : t M) (code language : string) : res pydict :=
  res_try
    (let prompt := review_prompt language in
     review ←
       mm_generate_response (model_manager self) model_type prompt
         [("max_tokens", VInt 768); ("temperature", VFloat (4 # 10))];
     mret [("agent", VStr agent_name);
           ("code_review", review);
           ("language", VStr language);
           ("original_code", VStr code);
           ("status", VStr "completed")])
    (λ e, Ok [("error", VStr (str_exn e)); ("status", VStr "failed")]).

(** The prompt of [debug_code]: the error message is part of it, the code is
    not. *)
Definition debug_prompt (error_message language : string) : string :=
  let prompt := system_prompt +:+ lf +:+ lf in
  let prompt := prompt +:+ "Debug the following " +:+ language
                +:+ " code that produces this error:" +:+ lf in
  let prompt := prompt +:+ "Error: " +:+ error_message +:+ lf +:+ lf in
  let prompt := prompt +:+ "Code:" +:+ lf +:+ "``````" +:+ lf +:+ lf in
  let prompt := prompt +:+ "Please provide:" +:+ lf +:+ "1. Error explanation" +:+ lf
                +:+ "2. Fixed code" +:+ lf +:+ "3. Prevention suggestions" in
  prompt.

(** [debug_code(self, code, error_message, language="python")] *)
Definition debug_code (self : t M) (code error_message language : string)
  : res pydict :=
  res_try
    (let prompt := debug_prompt error_message language in
     debug_response ←
       mm_generate_response (model_manager self) model_type prompt
         [("max_tokens", VInt 768); ("temperature", VFloat (3 # 10))];
     mret [("agent", VStr agent_name);
           ("debug_response", debug_response);
           ("original_code", VStr code);
           ("error_message", VStr error_message);
           ("language", VStr language);
           ("status", VStr "completed")])
    (λ e, Ok [("error", VStr (str_exn e)); ("status", VStr "failed")]).

End Methods.

End CodingAgent.

(** ** [agents/agent_orchestrator.py] *)

Module AgentOrchestrator.
Import PyStr Py.

(** *** The router and the strict coding predicate *)

Definition research_keywords : list string :=
  ["research"; "find"; "search"; "information"; "analyze"; "study"].

Definition doc_keywords : list string :=
  ["document"; "write"; "report"; "summary"; "documentation"].

Definition code_keywords : list string :=
  ["code"; "program"; "script"; "function"; "class"; "algorithm"; "debug"].

(** [_determine_agents_needed]: the list [needed_agents] is built by three
    conditional appends and one default append. *)
Definition _determine_agents_needed (request : string) : list string :=
  let request_lower := lower request in
  let needed_agents : list string := [] in
  let needed_agents :=
    if any_in research_keywords request_lower
    then needed_agents ++ ["research"] else needed_agents in
  let needed_agents :=
    if any_in doc_keywords request_lower
    then needed_agents ++ ["documentation"] else needed_agents in
  let needed_agents :=
    if any_in code_keywords request_lower
    then needed_agents ++ ["coding"] else needed_agents in
  match needed_agents with
  | [] => needed_agents ++ ["research"]
  | _ => needed_agents
  end.

Definition coding_indicators : list string :=
  ["write code"; "create function"; "build script"; "program";
   "algorithm"; "class"; "method"; "debug"; "fix code"].

(** [_is_coding_request] *)
Definition _is_coding_request (request : string) : bool :=
  any_in coding_indicators (lower request).

(** *** The pipeline *)

(** The three registered agents, as the orchestrator sees them during one
    run: each primary operation returns a result dict or raises.
    ([self.agents] is the registry built by [initialize_agents].) *)
Record agents : Type := {
  conduct_research : string → res pydict;
  create_documentation : pydict → res pydict;
  generate_code : string → res pydict
}.

(** An invocation of an agent, with the argument it received. *)
Inductive call : Type :=
  | CallResearch (query : string)
  | CallDocumentation (research_data : pydict)
  | CallCoding (task : string).

(** The capability an invocation belongs to. *)
Definition call_name (c : call) : string :=
  match c with
  | CallResearch _ => "research"
  | CallDocumentation _ => "documentation"
  | CallCoding _ => "coding"
  end.

(** One element of [self.conversation_history]. *)
Record conversation_entry : Type := {
  entry_id : nat;
  entry_request : string;
  entry_selected_agents : list string;
  entry_results : list (string * pydict);
  entry_timestamp : Q
}.

(** The object, reduced to the field the run mutates. *)
Record t : Type := { conversation_history : list conversation_entry }.

(** [__init__] *)
Definition init : t := {| conversation_history := [] |}.

(** What [process_user_request] returns. *)
Inductive response : Type :=
  | Completed (conversation_id : nat) (request : string)
              (results : list (string * pydict))
  | Failed (request : string) (error : string).

(** The ["status"] field of the returned dict. *)
Definition status (r : response) : string :=
  match r with Completed _ _ _ => "completed" | Failed _ _ => "failed" end.

(** What a run acts on: the orchestrator object, and the invocations of
    agents made so far (oldest first). *)
Record world : Type := { self : t; calls : list call }.

(** Computations of a run: they may change the world and may raise; what was
    done before an exception stays done. *)
Definition M (A : Type) : Type := world → res A * world.

#[global] Instance M_ret : MRet M := λ A a w, (Ok a, w).
#[global] Instance M_bind : MBind M := λ A B k m w,
  match m w with
  | (Ok a, w') => k a w'
  | (Raise e, w') => (Raise e, w')
  end.

(** [try: body  except Exception as e: handler(e)] *)
Definition try_except {A} (body : M A) (handler : exn → M A) : M A := λ w,
  match body w with
  | (Ok a, w') => (Ok a, w')
  | (Raise e, w') => handler e w'
  end.

(** Calling an agent: the invocation happens, then its outcome comes back. *)
Definition invoke {A} (c : call) (outcome : res A) : M A := λ w,
  (outcome, {| self := self w; calls := calls w ++ [c] |}).

(** A call that leaves the world alone. *)
Definition lift {A} (r : res A) : M A := λ w, (r, w).

(** [len(self.conversation_history)] *)
Definition history_length : M nat := λ w,
  (Ok (length (conversation_history (self w))), w).

(** [self.conversation_history.append(entry)] *)
Definition history_append (entry : conversation_entry) : M unit := λ w,
  (Ok (),
   {| self := {| conversation_history := conversation_history (self w) ++ [entry] |};
      calls := calls w |}).

(** [{"error": str(e), "status": "failed"}] *)
Definition failure (e : exn) : pydict :=
  [("error", VStr (str_exn e)); ("status", VStr "failed")].

(** [x in selected_agents] *)
Definition selected (x : string) (selected_agents : list string) : bool :=
  bool_decide (x ∈ selected_agents).

Section Run.
(** The agents' behaviour and the reading of the event loop's clock during
    the run. *)
Variable ag : agents.
Variable clock : res Q.

(** The research stage. *)
Definition research_stage (request : string) (selected_agents : list string)
    (results : list (string * pydict)) : M (list (string * pydict)) :=
  if selected "research" selected_agents then
    try_except
      (research_result ← invoke (CallResearch request) (conduct_research ag request);
       mret (dict_set results "research" research_result))
      (λ e, mret (dict_set results "research" (failure e)))
  else mret results.

(** The documentation stage. *)
Definition documentation_stage (request : string) (selected_agents : list string)
    (results : list (string * pydict)) : M (list (string * pydict)) :=
  if selected "documentation" selected_agents then
    try_except
      (let research_data :=
         dict_get_default results "research" [("research_report", VStr request)] in
       doc_result ← invoke (CallDocumentation research_data)
                           (create_documentation ag research_data);
       mret (dict_set results "documentation" doc_result))
      (λ e, mret (dict_set results "documentation" (failure e)))
  else mret results.

(** The coding stage. *)
Definition coding_stage (request : string) (selected_agents : list string)
    (results : list (string * pydict)) : M (list (string * pydict)) :=
  if selected "coding" selected_agents then
    try_except
      (if _is_coding_request request then
         code_result ← invoke (CallCoding request) (generate_code ag request);
         mret (dict_set results "coding" code_result)
       else mret results)
      (λ e, mret (dict_set results "coding" (failure e)))
  else mret results.

(** [not selected_agents]: [None] and the empty list are false. *)
Definition not_given (selected_agents : option (list string)) : bool :=
  match selected_agents with
  | None | Some [] => true
  | Some (_ :: _) => false
  end.

(** [process_user_request(self, request, selected_agents=None)] *)
Definition process_user_request (request : string)
    (selected_agents : option (list string)) : M response :=
  try_except
    (let selected_agents :=
       if not_given selected_agents then _determine_agents_needed request
       else default [] selected_agents in
     let results : list (string * pydict) := [] in
     conversation_id ← history_length;
     results ← research_stage request selected_agents results;
     results ← documentation_stage request selected_agents results;
     results ← coding_stage request selected_agents results;
     timestamp ← lift clock;
     let conversation_entry :=
       {| entry_id := conversation_id;
          entry_request := request;
          entry_selected_agents := selected_agents;
          entry_results := results;
          entry_timestamp := timestamp |} in
     history_append conversation_entry;;
     mret (Completed conversation_id request results))
    (λ e, mret (Failed request (str_exn e))).

End Run.

(** [get_conversation_history(self, limit=10)] *)
Definition get_conversation_history (self : t) (limit : Z) : list conversation_entry :=
  list_slice_from (conversation_history self) (- limit).

(** *** Initialisation *)

Definition models_to_load : list (string * string) :=
  [("microsoft/Phi-3-mini-4k-instruct", "phi3");
   ("microsoft/DialoGPT-medium", "mistral");
   ("Qwen/Qwen2.5-7B-Instruct", "qwen")].

(** [self.agents] once it is filled: the three agents under their names. *)
Record registry (M : Type) : Type := {
  research : ResearchAgent.t M;
  documentation : DocumentationAgent.t M;
  coding : CodingAgent.t M
}.
Arguments research {M} _.
Arguments documentation {M} _.
Arguments coding {M} _.

(** The fields [initialize_agents] works on: [self.model_manager] and
    [self.agents], [None] standing for the empty dict. *)
Record setup (M : Type) : Type := {
  model_manager : M;
  agents_registry : option (registry M)
}.
Arguments model_manager {M} _.
Arguments agents_registry {M} _.

Section Initialize.
Context {M : Type} `{!ModelLoader M}.
(** The search manager [ResearchAgent.__init__] builds. *)
Variable search : ResearchAgent.search_manager.

(** One round of the loop over [models_to_load]. *)
Definition load_one (state : nat * M) (model : string * string) : nat * M :=
  let '(loaded_count, mm) := state in
  let '(model_name, model_type) := model in
  match mm_load_model mm model_name model_type with
  | (Ok true, mm') => (S loaded_count, mm')
  | (Ok false, mm') => (loaded_count, mm')
  | (Raise _, mm') => (loaded_count, mm')
  end.

(** [initialize_agents(self)]: the answer and the fields as it leaves them.
    The agents are built on the manager as it is after the loop. Nothing
    outside the inner [try] raises, so the outer handler is never entered. *)
Definition initialize_agents (self : setup M) : bool * setup M :=
  let '(loaded_count, mm) := foldl load_one (0, model_manager self) models_to_load in
  if Nat.eqb loaded_count 0 then
    (false, {| model_manager := mm; agents_registry := agents_registry self |})
  else
    (true,
     {| model_manager := mm;
        agents_registry :=
          Some {| research := {| ResearchAgent.model_manager := mm;
                                 ResearchAgent.search := search |};
                  documentation := {| DocumentationAgent.model_manager := mm |};
                  coding := {| CodingAgent.model_manager := mm |} |} |}).

End Initialize.

End AgentOrchestrator.

(** ** [ui/app.py]: the selection of agents and the handling of a prompt

    Of the Streamlit application the parts that decide what the orchestrator
    is asked are embedded: the session state, the loop of [render_sidebar]
    that builds the selection from the check boxes, and [handle_user_input].
    Calls that only draw are left out; [st.error] and [st.warning] are kept as
    notices. *)

Module App.
Import Py AgentOrchestrator.

(** A chat message: [{"role": ..., "content": ...}], with a "results" key in
    the assistant's messages. *)
Record message : Type := {
  role : string;
  content : string;
  message_results : option (list (string * pydict))
}.

(** [st.session_state]: the messages, the selection and the flag. The
    orchestrator of the session is the world the handler runs in. *)
Record session : Type := {
  messages : list message;
  selected_agents : list string;
  system_initialized : bool
}.

(** [initialize_session_state] on an empty session state. *)
Definition initial_session : session :=
  {| messages := []; selected_agents := ["research"]; system_initialized := false |}.








End App.

(** ** Reading a run

    The notions the properties below are stated with: what a request text
    matches, the stage-by-stage reading of a run, the invocations a run makes,
    the states an orchestrator can reach, and the agents of the examples. *)

Section Reading.
Import PyStr Py AgentOrchestrator.

(** The fixed priority order of the three capabilities. *)
Definition priority_order : list string := ["research"; "documentation"; "coding"].

(** A request text matches a keyword set when, lower-cased, it contains one of
    the keywords of the set as a substring. *)
Definition matches (keywords : list string) (request : string) : Prop :=
  ∃ k, k ∈ keywords ∧ substring_of k (lower request).

(** The capability list a run works with: the caller's list, or the router's
    when the caller gave none (or an empty one). *)
Definition effective_selection (request : string)
    (selected_agents : option (list string)) : list string :=
  if not_given selected_agents then _determine_agents_needed request
  else default [] selected_agents.

(** The record a stage stores for an agent's outcome. *)
Definition stored (outcome : res pydict) : pydict :=
  match outcome with Ok r => r | Raise e => failure e end.

(** The object handed to the documentation agent when no research entry
    exists. *)
Definition synthesized (request : string) : pydict :=
  [("research_report", VStr request)].

Section Stages.
Variables (ag : agents) (request : string) (sa : list string).

Definition research_entry : option pydict :=
  if selected "research" sa then Some (stored (conduct_research ag request))
  else None.

Definition documentation_input : pydict :=
  default (synthesized request) research_entry.

Definition documentation_entry : option pydict :=
  if selected "documentation" sa
  then Some (stored (create_documentation ag documentation_input))
  else None.

Definition coding_entry : option pydict :=
  if selected "coding" sa && _is_coding_request request
  then Some (stored (generate_code ag request))
  else None.

Definition keyed (k : string) (entry : option pydict) : list (string * pydict) :=
  match entry with Some r => [(k, r)] | None => [] end.

Definition stage_results : list (string * pydict) :=
  keyed "research" research_entry ++ keyed "documentation" documentation_entry
  ++ keyed "coding" coding_entry.

Definition stage_calls : list call :=
  (if selected "research" sa then [CallResearch request] else [])
  ++ (if selected "documentation" sa
      then [CallDocumentation documentation_input] else [])
  ++ (if selected "coding" sa && _is_coding_request request
      then [CallCoding request] else []).

End Stages.

(** The entry a completed run appends to the history. *)
Definition appended_entry (ag : agents) (t : Q) (request : string)
    (selected_agents : option (list string)) (w : world) : conversation_entry :=
  let sa := effective_selection request selected_agents in
  {| entry_id := length (conversation_history (self w));
     entry_request := request;
     entry_selected_agents := sa;
     entry_results := stage_results ag request sa;
     entry_timestamp := t |}.

(** The invocations a run adds to the world, oldest first. *)
Definition run_calls (ag : agents) (clock : res Q) (request : string)
    (selected_agents : option (list string)) (w : world) : list call :=
  drop (length (calls w))
       (calls (process_user_request ag clock request selected_agents w).2).

(** What the agent answers to an invocation. *)
Definition outcome (ag : agents) (c : call) : res pydict :=
  match c with
  | CallResearch query => conduct_research ag query
  | CallDocumentation research_data => create_documentation ag research_data
  | CallCoding task => generate_code ag task
  end.

(** The states an orchestrator can be in: a fresh one, and any state a call of
    [process_user_request] leaves behind. *)
Inductive reachable : t → Prop :=
  | reachable_init : reachable init
  | reachable_step o ag clock request selected_agents cs :
      reachable o →
      reachable (self (process_user_request ag clock request selected_agents
                         {| self := o; calls := cs |}).2).

(** A fresh world. *)
Definition w0 : world := {| self := init; calls := [] |}.

(** Agents for the examples: research is down, the others answer. *)
Definition search_down : exn := Exception "RuntimeError" "search backend down".

Definition research_down : agents :=
  {| conduct_research := λ _, Raise search_down;
     create_documentation := λ _, Ok [("status", VStr "completed")];
     generate_code := λ _, Ok [("status", VStr "completed")] |}.

(** Agents for the examples: every agent answers. *)
Definition all_up : agents :=
  {| conduct_research := λ q, Ok [("research_report", VStr q); ("status", VStr "completed")];
     create_documentation := λ _, Ok [("status", VStr "completed")];
     generate_code := λ _, Ok [("status", VStr "completed")] |}.

End Reading.

(** ** Reading the collaborators

    Notions for the properties of the search manager and of the agents. *)

Section ReadingCollaborators.
Import PyStr Py.

(** What [search_web] makes of one result dict of the client. *)
Definition normal_record (d : pydict) : pyval :=
  VDict [("title", dict_get_default d "title" (VStr ""));
         ("url", dict_get_default d "href" (VStr ""));
         ("snippet", dict_get_default d "body" (VStr ""));
         ("source", VStr "DuckDuckGo")].

(** What a search returns, as a list. *)
Definition found (ddgs : WebSearchManager.backend) (ws : WebSearchManager.t)
    (query : string) (max_results : option Z) : list pyval :=
  match WebSearchManager.search_web ddgs ws query max_results with
  | Ok results => results
  | Raise _ => []
  end.

(** The heading of a document of the given type. *)
Definition heading (doc_type : string) : string :=
  "# " +:+ title (replace_char "_" " " doc_type) +:+ lf +:+ lf.

(** The registered agents as a run sees them: the calls
    [conduct_research(request)], [create_documentation(research_data)] and
    [generate_code(request)] of [process_user_request], the other parameters
    at their defaults. *)
Definition behaviour (py_str : pyval → string) {M : Type} `{!ModelManager M}
    (reg : AgentOrchestrator.registry M) : AgentOrchestrator.agents :=
  {| AgentOrchestrator.conduct_research :=
       ResearchAgent.conduct_research (AgentOrchestrator.research reg);
     AgentOrchestrator.create_documentation := λ research_data,
       DocumentationAgent.create_documentation py_str
         (AgentOrchestrator.documentation reg) research_data "research_report";
     AgentOrchestrator.generate_code := λ task,
       CodingAgent.generate_code (AgentOrchestrator.coding reg) task "python" "" |}.

(** The registry [initialize_agents] builds on a manager. *)
Definition registry_on {M : Type} (search : ResearchAgent.search_manager) (mm : M)
  : AgentOrchestrator.registry M :=
  {| AgentOrchestrator.research :=
       {| ResearchAgent.model_manager := mm; ResearchAgent.search := search |};
     AgentOrchestrator.documentation := {| DocumentationAgent.model_manager := mm |};
     AgentOrchestrator.coding := {| CodingAgent.model_manager := mm |} |}.

(** An orchestrator before initialisation: a manager without pipelines and no
    agents. *)
Definition fresh_setup : AgentOrchestrator.setup SimpleModelManager.t :=
  {| AgentOrchestrator.model_manager := SimpleModelManager.init;
     AgentOrchestrator.agents_registry := None |}.

(** A constructor for the examples: only the third model can be built. *)
Definition only_qwen : string → res SimpleModelManager.pipeline := λ model_name,
  if decide (model_name = "Qwen/Qwen2.5-7B-Instruct")
  then Ok (SimpleModelManager.echo_pipe " ok")
  else Raise SimpleModelManager.out_of_memory.

(** Another one: only the first model can be built. *)
Definition only_phi3 : string → res SimpleModelManager.pipeline := λ model_name,
  if decide (model_name = "microsoft/Phi-3-mini-4k-instruct")
  then Ok (SimpleModelManager.echo_pipe " ok")
  else Raise SimpleModelManager.out_of_memory.

(** A search manager whose search raises. *)
Definition search_timeout : exn := Exception "TimeoutError" "timed out".

Definition failing_search : ResearchAgent.search_manager :=
  {| ResearchAgent.async_search := λ _ _, Raise search_timeout;
     ResearchAgent.format_search_results := λ _, Ok "" |}.

(** The printed form used in the examples. *)
Definition printed : pyval → string := λ _, "<value>".

(** The simple model manager as the agents' manager in the examples. *)
Definition simple : ModelManager SimpleModelManager.t :=
  SimpleModelManager.as_model_manager printed.




(** The record the research agent returns when it fails. *)
Definition research_failure (query : string) (e : exn) : pydict :=
  [("agent", VStr "ResearchAgent"); ("query", VStr query);
   ("error", VStr (str_exn e)); ("status", VStr "failed")].

(** Whether a value is a dict. *)
Definition is_dict (v : pyval) : bool :=
  match v with VDict _ => true | _ => false end.

End ReadingCollaborators.

(** * Properties *)

(** ** Substring containment computes what it should *)

Section Substrings.
Import PyStr.

Lemma append_nil_l (s : string) : "" +:+ s = s.
Proof. reflexivity. Qed.

Lemma append_cons (c : ascii) (a s : string) :
  String c a +:+ s = String c (a +:+ s).
Proof. reflexivity. Qed.

Lemma startswith_spec (p s : string) :
  startswith p s = true ↔ ∃ rest, s = p +:+ rest.
Proof.
  revert s. induction p as [|a p IH]; intros s.
  - split; [intros _; exists s; reflexivity | reflexivity].
  - destruct s as [|b s]; simpl.
    + split; [discriminate | intros [rest Hrest]; discriminate].
    + destruct (ascii_dec a b) as [->|Hab].
      * rewrite IH. split; intros [rest Hrest]; exists rest.
        -- rewrite append_cons. congruence.
        -- rewrite append_cons in Hrest. congruence.
      * split; [discriminate|].
        intros [rest Hrest]. rewrite append_cons in Hrest. congruence.
Qed.

Lemma startswith_append (p s : string) : startswith p (p +:+ s) = true.
Proof. apply startswith_spec. eauto. Qed.

Lemma contains_spec (needle hay : string) :
  contains needle hay = true ↔ substring_of needle hay.
Proof.
  unfold substring_of. induction hay as [|c hay IH]; simpl.
  - rewrite orb_false_r, startswith_spec. split.
    + intros [rest Hrest]. exists "", rest. exact Hrest.
    + intros ([|? before] & after & H); [|discriminate].
      exists after. exact H.
  - rewrite orb_true_iff, startswith_spec, IH. split.
    + intros [[rest Hrest] | (before & after & H)].
      * exists "", rest. exact Hrest.
      * exists (String c before), after. rewrite append_cons. congruence.
    + intros ([|c' before] & after & H).
      * left. exists after. exact H.
      * right. exists before, after. rewrite append_cons in H. congruence.
Qed.

Lemma contains_false (needle hay : string) :
  contains needle hay = false ↔ ¬ substring_of needle hay.
Proof.
  rewrite <- contains_spec. destruct (contains needle hay); intuition congruence.
Qed.

(** [any(k in text for k in keywords)] holds when some keyword of the list is
    a substring of the text. *)
Lemma any_in_spec (keywords : list string) (text : string) :
  any_in keywords text = true ↔ ∃ k, k ∈ keywords ∧ substring_of k text.
Proof.
  unfold any_in. rewrite existsb_exists. split.
  - intros (k & Hk & Hc). exists k. split; [by apply list_elem_of_In|].
    by apply contains_spec.
  - intros (k & Hk & Hc). exists k. split; [by apply list_elem_of_In|].
    by apply contains_spec.
Qed.

Lemma any_in_false (keywords : list string) (text : string) :
  any_in keywords text = false ↔ ∀ k, k ∈ keywords → ¬ substring_of k text.
Proof.
  split.
  - intros Hf k Hk Hs.
    assert (any_in keywords text = true) by (apply any_in_spec; eauto).
    congruence.
  - intros Hn. destruct (any_in keywords text) eqn:E; [|done].
    apply any_in_spec in E as (k & Hk & Hs). by destruct (Hn k Hk).
Qed.

Lemma findall_from_none (pat s : string) :
  contains pat s = false → ∀ skip, findall_from pat skip s = [].
Proof.
  induction s as [|c s IH]; intros Hc skip; [reflexivity|].
  simpl in Hc. apply orb_false_iff in Hc as [Hstart Hrest].
  destruct skip as [|k]; simpl.
  - change (match pat with
            | "" => true
            | String a p' =>
                if ascii_dec a c then startswith p' s else false
            end) with (startswith pat (String c s)).
    rewrite Hstart. by apply IH.
  - by apply IH.
Qed.


Lemma findall_some (pat s : string) :
  pat ≠ "" → contains pat s = true → ∃ rest, findall pat s = pat :: rest.
Proof.
  intros Hpat. unfold findall. induction s as [|c s IH]; intros Hc.
  - simpl in Hc. rewrite orb_false_r in Hc. by destruct pat.
  - simpl in Hc. simpl.
    change (match pat with
            | "" => true
            | String a p' => if ascii_dec a c then startswith p' s else false
            end) with (startswith pat (String c s)) in *.
    destruct (startswith pat (String c s)); [eauto|]. by apply IH.
Qed.

End Substrings.

(** ** The router *)

Section RouterProperties.
Import PyStr Py AgentOrchestrator.

Lemma matches_any_in (keywords : list string) (request : string) :
  matches keywords request ↔ any_in keywords (lower request) = true.
Proof. unfold matches. by rewrite any_in_spec. Qed.

(** The router's answer is a function of the three membership tests alone. *)
Lemma router_table (request : string) :
  _determine_agents_needed request =
  match any_in research_keywords (lower request),
        any_in doc_keywords (lower request),
        any_in code_keywords (lower request) with
  | false, false, false => ["research"]
  | r, d, c =>
      (if r then ["research"] else []) ++ (if d then ["documentation"] else [])
      ++ (if c then ["coding"] else [])
  end.
Proof.
  unfold _determine_agents_needed.
  by destruct (any_in research_keywords _), (any_in doc_keywords _),
    (any_in code_keywords _).
Qed.

Lemma router_sublist_of_priority_order (request : string) :
  _determine_agents_needed request `sublist_of` priority_order.
Proof.
  rewrite router_table. unfold priority_order.
  destruct (any_in research_keywords _), (any_in doc_keywords _),
    (any_in code_keywords _); simpl; repeat constructor.
Qed.

Lemma router_no_duplicates (request : string) :
  NoDup (_determine_agents_needed request).
Proof.
  rewrite router_table.
  destruct (any_in research_keywords _), (any_in doc_keywords _),
    (any_in code_keywords _); simpl; by apply (bool_decide_unpack _).
Qed.

(** C5. Whatever the request text, the router's list follows the fixed order
    research, documentation, coding (it is a subsequence of it), names no
    capability twice, and is the same for any other text that matches the same
    keyword sets. *)
Theorem router_fixed_order_no_duplicates (request : string) :
  _determine_agents_needed request `sublist_of` priority_order
  ∧ NoDup (_determine_agents_needed request)
  ∧ ∀ other : string,
      (matches research_keywords other ↔ matches research_keywords request) →
      (matches doc_keywords other ↔ matches doc_keywords request) →
      (matches code_keywords other ↔ matches code_keywords request) →
      _determine_agents_needed other = _determine_agents_needed request.
Proof.
  split_and!.
  - apply router_sublist_of_priority_order.
  - apply router_no_duplicates.
  - intros other Hr Hd Hc. rewrite !matches_any_in in Hr, Hd, Hc.
    rewrite !router_table.
    destruct (any_in research_keywords (lower other)),
      (any_in doc_keywords (lower other)), (any_in code_keywords (lower other)),
      (any_in research_keywords (lower request)),
      (any_in doc_keywords (lower request)),
      (any_in code_keywords (lower request));
      first [reflexivity | intuition congruence].
Qed.

(** C6. A request text that, lower-cased, contains no keyword of any of the
    three sets is routed to research alone. *)
Theorem router_default_research (request : string)
    (Hnone : ∀ k, k ∈ research_keywords ++ doc_keywords ++ code_keywords →
                  ¬ substring_of k (lower request)) :
  _determine_agents_needed request = ["research"].
Proof.
  rewrite router_table.
  assert (any_in research_keywords (lower request) = false) as ->.
  { apply any_in_false. intros k Hk. apply Hnone. rewrite !elem_of_app. auto. }
  assert (any_in doc_keywords (lower request) = false) as ->.
  { apply any_in_false. intros k Hk. apply Hnone. rewrite !elem_of_app. auto. }
  assert (any_in code_keywords (lower request) = false) as ->.
  { apply any_in_false. intros k Hk. apply Hnone. rewrite !elem_of_app. auto. }
  reflexivity.
Qed.

End RouterProperties.

(** ** The pipeline, stage by stage *)

Section PipelineReading.
Import PyStr Py AgentOrchestrator.

(** Case analysis on a run: which capabilities are selected, whether the
    strict predicate holds, and how each invoked agent comes back. *)
Ltac run_cases ag request sa :=
  destruct (selected "research" sa);
    [destruct (conduct_research ag request)|]; simpl;
  (destruct (selected "documentation" sa);
    [match goal with
     | |- context [create_documentation ag ?d] =>
         destruct (create_documentation ag d)
     end|]); simpl;
  (destruct (selected "coding" sa);
    [destruct (_is_coding_request request);
      [destruct (generate_code ag request)|]|]); simpl;
  rewrite <- ?app_assoc, ?app_nil_r; reflexivity.

(** A run whose clock reading succeeds: the three stages in order, one entry
    appended, a completed response. *)
Lemma process_user_request_completed ag t request selected_agents w :
  let sa := effective_selection request selected_agents in
  process_user_request ag (Ok t) request selected_agents w =
  (Ok (Completed (length (conversation_history (self w))) request
         (stage_results ag request sa)),
   {| self := {| conversation_history :=
                   conversation_history (self w)
                   ++ [appended_entry ag t request selected_agents w] |};
      calls := calls w ++ stage_calls ag request sa |}).
Proof.
  destruct w as [[history] cs].
  unfold process_user_request, appended_entry, effective_selection,
    stage_results, stage_calls, documentation_entry, documentation_input,
    coding_entry, research_entry, research_stage, documentation_stage,
    coding_stage, try_except, invoke, lift, history_length, history_append,
    mbind, mret, M_bind, M_ret, stored, synthesized, dict_get_default. simpl.
  set (sa := if not_given selected_agents then _ else _).
  run_cases ag request sa.
Qed.

(** A run whose clock reading raises: the stages ran, nothing is appended and
    the run as a whole is reported failed. *)
Lemma process_user_request_failed ag e request selected_agents w :
  let sa := effective_selection request selected_agents in
  process_user_request ag (Raise e) request selected_agents w =
  (Ok (Failed request (str_exn e)),
   {| self := self w; calls := calls w ++ stage_calls ag request sa |}).
Proof.
  destruct w as [[history] cs].
  unfold process_user_request, effective_selection,
    stage_calls, documentation_input,
    research_entry, research_stage, documentation_stage,
    coding_stage, try_except, invoke, lift, history_length, history_append,
    mbind, mret, M_bind, M_ret, stored, synthesized, dict_get_default. simpl.
  set (sa := if not_given selected_agents then _ else _).
  run_cases ag request sa.
Qed.

End PipelineReading.

(** ** Runs and what they leave behind *)

Section RunObservations.
Import PyStr Py AgentOrchestrator.

Lemma run_calls_stage ag clock request selected_agents w :
  run_calls ag clock request selected_agents w
  = stage_calls ag request (effective_selection request selected_agents).
Proof.
  unfold run_calls. destruct clock as [t|e].
  - rewrite process_user_request_completed. simpl. apply drop_app_length.
  - rewrite process_user_request_failed. simpl. apply drop_app_length.
Qed.

Lemma stage_calls_names ag request sa :
  call_name <$> stage_calls ag request sa
  = (if selected "research" sa then ["research"] else [])
    ++ (if selected "documentation" sa then ["documentation"] else [])
    ++ (if selected "coding" sa && _is_coding_request request
        then ["coding"] else []).
Proof.
  unfold stage_calls.
  by destruct (selected "research" sa), (selected "documentation" sa),
    (selected "coding" sa && _is_coding_request request).
Qed.

(** Membership in the calls of a run, by stage. *)
Lemma elem_of_stage_calls ag request sa c :
  c ∈ stage_calls ag request sa ↔
    (selected "research" sa = true ∧ c = CallResearch request)
    ∨ (selected "documentation" sa = true
       ∧ c = CallDocumentation (documentation_input ag request sa))
    ∨ (selected "coding" sa = true ∧ _is_coding_request request = true
       ∧ c = CallCoding request).
Proof.
  unfold stage_calls. rewrite !elem_of_app.
  destruct (selected "research" sa), (selected "documentation" sa),
    (selected "coding" sa), (_is_coding_request request); simpl;
    rewrite ?list_elem_of_singleton, ?elem_of_nil; intuition congruence.
Qed.

(** The entries of the aggregated results, by key. *)
Lemma stage_results_research ag request sa :
  dict_get (stage_results ag request sa) "research" = research_entry ag request sa.
Proof.
  unfold stage_results, keyed.
  by destruct (research_entry ag request sa), (documentation_entry ag request sa),
    (coding_entry ag request sa).
Qed.

Lemma stage_results_documentation ag request sa :
  dict_get (stage_results ag request sa) "documentation"
  = documentation_entry ag request sa.
Proof.
  unfold stage_results, keyed.
  by destruct (research_entry ag request sa), (documentation_entry ag request sa),
    (coding_entry ag request sa).
Qed.

Lemma stage_results_coding ag request sa :
  dict_get (stage_results ag request sa) "coding" = coding_entry ag request sa.
Proof.
  unfold stage_results, keyed.
  by destruct (research_entry ag request sa), (documentation_entry ag request sa),
    (coding_entry ag request sa).
Qed.

Lemma stage_results_keys ag request sa :
  dict_keys (stage_results ag request sa)
  = (if selected "research" sa then ["research"] else [])
    ++ (if selected "documentation" sa then ["documentation"] else [])
    ++ (if selected "coding" sa && _is_coding_request request
        then ["coding"] else []).
Proof.
  unfold stage_results, keyed, dict_keys, research_entry, documentation_entry,
    coding_entry.
  by destruct (selected "research" sa), (selected "documentation" sa),
    (selected "coding" sa && _is_coding_request request).
Qed.

End RunObservations.

(** ** The pipeline claims *)

Section PipelineProperties.
Import PyStr Py AgentOrchestrator.

(** C1. Whatever the request and the capability list, and whichever agents
    raise: the run completes; the capabilities invoked are the selected ones
    in the fixed order (coding when the strict predicate holds), none skipped
    because an earlier one raised; and an invocation that raises leaves, under
    its capability's key, the record with the error text and status failed. *)
Theorem capability_failure_is_isolated ag t request selected_agents w :
  let sa := effective_selection request selected_agents in
  ∃ results,
    (process_user_request ag (Ok t) request selected_agents w).1
    = Ok (Completed (length (conversation_history (self w))) request results)
    ∧ call_name <$> run_calls ag (Ok t) request selected_agents w
      = (if selected "research" sa then ["research"] else [])
        ++ (if selected "documentation" sa then ["documentation"] else [])
        ++ (if selected "coding" sa && _is_coding_request request
            then ["coding"] else [])
    ∧ ∀ c e,
        c ∈ run_calls ag (Ok t) request selected_agents w →
        outcome ag c = Raise e →
        dict_get results (call_name c) = Some (failure e)
        ∧ dict_get (failure e) "error" = Some (VStr (str_exn e))
        ∧ dict_get (failure e) "status" = Some (VStr "failed").
Proof.
  intros sa. exists (stage_results ag request sa).
  rewrite run_calls_stage, process_user_request_completed. fold sa.
  split_and!; [reflexivity | apply stage_calls_names |].
  intros c e Hc Hraise. split; [|by split].
  apply elem_of_stage_calls in Hc as [[Hs ->] | [[Hs ->] | (Hs & Hp & ->)]];
    simpl in *.
  - rewrite stage_results_research. unfold research_entry.
    by rewrite Hs, Hraise.
  - rewrite stage_results_documentation. unfold documentation_entry.
    by rewrite Hs, Hraise.
  - rewrite stage_results_coding. unfold coding_entry.
    by rewrite Hs, Hp, Hraise.
Qed.

(** C2. In every run the documentation agent is invoked exactly when
    documentation is selected, and what it receives is the entry stored under
    "research" in the aggregated results when there is one (a result or a
    failure record alike), and otherwise the object whose "research_report"
    is the raw request text. *)
Theorem documentation_input_is_research_entry ag t request selected_agents w :
  ∃ results,
    (process_user_request ag (Ok t) request selected_agents w).1
    = Ok (Completed (length (conversation_history (self w))) request results)
    ∧ (selected "documentation" (effective_selection request selected_agents) = true
       ↔ ∃ d, CallDocumentation d ∈ run_calls ag (Ok t) request selected_agents w)
    ∧ ∀ d, CallDocumentation d ∈ run_calls ag (Ok t) request selected_agents w →
           d = match dict_get results "research" with
               | Some entry => entry
               | None => [("research_report", VStr request)]
               end.
Proof.
  set (sa := effective_selection request selected_agents).
  exists (stage_results ag request sa).
  rewrite run_calls_stage, process_user_request_completed. fold sa.
  split_and!; [reflexivity | |].
  - split.
    + intros Hs. exists (documentation_input ag request sa).
      apply elem_of_stage_calls. auto.
    + intros [d Hd].
      apply elem_of_stage_calls in Hd as [[_ ?] | [[Hs _] | (_ & _ & ?)]];
        by try discriminate.
  - intros d Hd. rewrite stage_results_research.
    apply elem_of_stage_calls in Hd as [[_ ?] | [[Hs Hd] | (_ & _ & ?)]];
      try discriminate.
    injection Hd as ->. reflexivity.
Qed.

(** C3, as the code has it. When research and documentation are both selected
    and the research agent raises, the documentation agent is still invoked,
    and what it receives is the failure record stored under "research" (the
    error text and status failed), which is not the object wrapping the raw
    request. *)
Theorem failed_research_record_is_documentation_input
    ag clock request selected_agents w e
    (Hresearch : selected "research" (effective_selection request selected_agents) = true)
    (Hdoc : selected "documentation" (effective_selection request selected_agents) = true)
    (Hraise : conduct_research ag request = Raise e) :
  CallDocumentation (failure e) ∈ run_calls ag clock request selected_agents w
  ∧ (∀ d, CallDocumentation d ∈ run_calls ag clock request selected_agents w →
          d = failure e)
  ∧ failure e ≠ [("research_report", VStr request)].
Proof.
  set (sa := effective_selection request selected_agents) in *.
  assert (documentation_input ag request sa = failure e) as Hin.
  { unfold documentation_input, research_entry. by rewrite Hresearch, Hraise. }
  rewrite run_calls_stage. fold sa. split_and!.
  - apply elem_of_stage_calls. right; left. by rewrite Hin.
  - intros d Hd.
    apply elem_of_stage_calls in Hd as [[_ ?] | [[_ Hd] | (_ & _ & ?)]];
      try discriminate.
    injection Hd as ->. exact Hin.
  - discriminate.
Qed.

(** C4. When coding is among the capabilities of the run, wherever the list
    came from, the coding agent is invoked exactly when the strict predicate
    holds for the raw request text; when it does not hold the aggregated
    results have no "coding" key. *)
Theorem coding_runs_iff_strict_predicate ag t request selected_agents w
    (Hcoding : selected "coding" (effective_selection request selected_agents) = true) :
  ∃ results,
    (process_user_request ag (Ok t) request selected_agents w).1
    = Ok (Completed (length (conversation_history (self w))) request results)
    ∧ ((∃ c, c ∈ run_calls ag (Ok t) request selected_agents w
             ∧ call_name c = "coding")
       ↔ _is_coding_request request = true)
    ∧ (_is_coding_request request = false →
       dict_get results "coding" = None ∧ "coding" ∉ dict_keys results).
Proof.
  set (sa := effective_selection request selected_agents) in *.
  exists (stage_results ag request sa).
  rewrite run_calls_stage, process_user_request_completed. fold sa.
  split_and!; [reflexivity | |].
  - split.
    + intros (c & Hc & Hname).
      apply elem_of_stage_calls in Hc as [[_ ->] | [[_ ->] | (_ & Hp & _)]];
        by try discriminate.
    + intros Hp. exists (CallCoding request). split; [|reflexivity].
      apply elem_of_stage_calls. auto.
  - intros Hp. split.
    + rewrite stage_results_coding. unfold coding_entry.
      by rewrite Hp, andb_false_r.
    + rewrite stage_results_keys, Hp, andb_false_r, app_nil_r.
      destruct (selected "research" sa), (selected "documentation" sa); simpl;
        rewrite ?elem_of_cons, ?elem_of_nil; intuition discriminate.
Qed.

End PipelineProperties.

(** ** The pipeline on examples, and what the stored list can be *)

Section PipelineExamples.
Import PyStr Py AgentOrchestrator.

Lemma capability_failure_is_isolated_witness :
  ∃ results,
    (process_user_request research_down (Ok 0%Q)
       "research and document the algorithm" None w0).1
    = Ok (Completed 0 "research and document the algorithm" results)
    ∧ call_name <$> run_calls research_down (Ok 0%Q)
                      "research and document the algorithm" None w0
      = ["research"; "documentation"; "coding"]
    ∧ dict_get results "research" = Some (failure search_down).
Proof.
  destruct (capability_failure_is_isolated research_down 0%Q
              "research and document the algorithm" None w0)
    as (results & Hrun & Hnames & Hfail).
  exists results. split; [exact Hrun|]. split; [exact Hnames|].
  apply (Hfail (CallResearch "research and document the algorithm") search_down).
  - vm_compute. left.
  - reflexivity.
Defined.

Lemma documentation_input_is_research_entry_witness :
  ∃ results,
    (process_user_request research_down (Ok 0%Q)
       "document our research findings" None w0).1
    = Ok (Completed 0 "document our research findings" results)
    ∧ CallDocumentation (failure search_down)
        ∈ run_calls research_down (Ok 0%Q) "document our research findings" None w0
    ∧ failure search_down
      = match dict_get results "research" with
        | Some entry => entry
        | None => [("research_report", VStr "document our research findings")]
        end.
Proof.
  destruct (documentation_input_is_research_entry research_down 0%Q
              "document our research findings" None w0)
    as (results & Hrun & _ & Hin).
  assert (CallDocumentation (failure search_down)
            ∈ run_calls research_down (Ok 0%Q)
                "document our research findings" None w0) as Hcall.
  { vm_compute. right. left. }
  exists results. split; [exact Hrun|]. split; [exact Hcall|].
  exact (Hin _ Hcall).
Defined.

(** C3, as stated, fails: with research and documentation selected and a
    research agent that raises, the documentation agent is not handed the
    object wrapping the raw request. *)
Lemma synthesized_input_after_failed_research_counterexample :
  selected "research"
    (effective_selection "document our research findings" None) = true
  ∧ selected "documentation"
      (effective_selection "document our research findings" None) = true
  ∧ conduct_research research_down "document our research findings"
    = Raise search_down
  ∧ CallDocumentation [("research_report", VStr "document our research findings")]
      ∉ run_calls research_down (Ok 0%Q) "document our research findings" None w0.
Proof.
  split_and!; [reflexivity..|].
  assert (run_calls research_down (Ok 0%Q) "document our research findings" None w0
          = [CallResearch "document our research findings";
             CallDocumentation (failure search_down)]) as -> by reflexivity.
  rewrite !elem_of_cons, elem_of_nil. intros [H|[H|[]]]; discriminate H.
Qed.

Lemma failed_research_record_is_documentation_input_witness :
  CallDocumentation (failure search_down)
    ∈ run_calls research_down (Ok 0%Q) "document our research findings" None w0.
Proof.
  apply (failed_research_record_is_documentation_input research_down (Ok 0%Q)
           "document our research findings" None w0 search_down);
    reflexivity.
Defined.

Lemma coding_runs_iff_strict_predicate_witness :
  selected "coding" (effective_selection "explain this function" None) = true
  ∧ _is_coding_request "explain this function" = false
  ∧ ∃ results,
      (process_user_request all_up (Ok 0%Q) "explain this function" None w0).1
      = Ok (Completed 0 "explain this function" results)
      ∧ dict_get results "coding" = None.
Proof.
  split; [reflexivity|]. split; [reflexivity|].
  destruct (coding_runs_iff_strict_predicate all_up 0%Q
              "explain this function" None w0 eq_refl)
    as (results & Hrun & _ & Habsent).
  exists results. split; [exact Hrun|]. apply Habsent. reflexivity.
Defined.

(** C8, as stated, fails: the text contains the documentation keyword "write",
    so the router does not answer coding alone, and the results of the run do
    not have "coding" as their only key. *)
Lemma sorting_request_only_coding_counterexample :
  _determine_agents_needed
    "Please write code for a function that debugs a sorting algorithm"
  ≠ ["coding"]
  ∧ ¬ ∃ results,
        (process_user_request all_up (Ok 0%Q)
           "Please write code for a function that debugs a sorting algorithm"
           None w0).1
        = Ok (Completed 0
                "Please write code for a function that debugs a sorting algorithm"
                results)
        ∧ dict_keys results = ["coding"].
Proof.
  split; [discriminate|].
  intros (results & Hrun & Hkeys).
  vm_compute in Hrun. injection Hrun as <-. discriminate Hkeys.
Qed.

(** C8, as the code has it. For that request text the strict predicate holds,
    the router answers documentation and coding, both agents are invoked in
    that order, and the aggregated results have exactly the two keys
    "documentation" and "coding", whatever the agents answer. *)
Theorem sorting_request_runs_documentation_and_coding ag t w :
  _is_coding_request
    "Please write code for a function that debugs a sorting algorithm" = true
  ∧ _determine_agents_needed
      "Please write code for a function that debugs a sorting algorithm"
    = ["documentation"; "coding"]
  ∧ ∃ results,
      (process_user_request ag (Ok t)
         "Please write code for a function that debugs a sorting algorithm"
         None w).1
      = Ok (Completed (length (conversation_history (self w)))
              "Please write code for a function that debugs a sorting algorithm"
              results)
      ∧ dict_keys results = ["documentation"; "coding"]
      ∧ call_name <$> run_calls ag (Ok t)
          "Please write code for a function that debugs a sorting algorithm"
          None w
        = ["documentation"; "coding"].
Proof.
  split; [reflexivity|]. split; [reflexivity|].
  eexists. rewrite run_calls_stage, process_user_request_completed.
  split; [reflexivity|].
  by rewrite stage_results_keys, stage_calls_names.
Qed.

(** C9, as stated, fails: a list supplied by the caller is stored as it is,
    out of order and with a repetition. *)
Lemma stored_selection_from_caller_counterexample :
  ∃ entry,
    last (conversation_history
            (self (process_user_request all_up (Ok 0%Q) "hello"
                     (Some ["coding"; "research"; "coding"]) w0).2))
    = Some entry
    ∧ entry_selected_agents entry = ["coding"; "research"; "coding"]
    ∧ ¬ (entry_selected_agents entry `sublist_of` priority_order)
    ∧ ¬ NoDup (entry_selected_agents entry).
Proof.
  eexists. split; [reflexivity|]. split; [reflexivity|]. simpl. split.
  - unfold priority_order. intros H.
    repeat match goal with
           | H : _ `sublist_of` _ |- _ => inversion H; clear H; subst
           end.
  - intros H. apply NoDup_cons in H as [Hnotin _]. apply Hnotin.
    rewrite !elem_of_cons. auto.
Qed.

(** C9, as the code has it. A completed run appends one entry, and the list it
    stores is the list the run worked with: the router's when the caller gave
    none (or an empty one), and then a subsequence of the fixed order without
    repetition; the caller's own list otherwise, exactly as supplied. *)
Theorem stored_selection_is_the_list_used ag t request selected_agents w :
  ∃ entry,
    conversation_history
      (self (process_user_request ag (Ok t) request selected_agents w).2)
    = conversation_history (self w) ++ [entry]
    ∧ entry_selected_agents entry = effective_selection request selected_agents
    ∧ (not_given selected_agents = true →
       entry_selected_agents entry = _determine_agents_needed request
       ∧ entry_selected_agents entry `sublist_of` priority_order
       ∧ NoDup (entry_selected_agents entry))
    ∧ (∀ l, selected_agents = Some l → l ≠ [] → entry_selected_agents entry = l).
Proof.
  exists (appended_entry ag t request selected_agents w).
  rewrite process_user_request_completed. simpl.
  split; [reflexivity|]. split; [reflexivity|]. split.
  - intros Hnot. unfold effective_selection. rewrite Hnot.
    split; [reflexivity|].
    split; [apply router_sublist_of_priority_order | apply router_no_duplicates].
  - intros l -> Hl. unfold effective_selection. by destruct l.
Qed.

Lemma stored_selection_is_the_list_used_witness :
  ∃ entry,
    conversation_history
      (self (process_user_request all_up (Ok 0%Q)
               "find a summary of the script" None w0).2)
    = conversation_history (self w0) ++ [entry]
    ∧ entry_selected_agents entry = ["research"; "documentation"; "coding"]
    ∧ entry_selected_agents entry `sublist_of` priority_order
    ∧ NoDup (entry_selected_agents entry).
Proof.
  destruct (stored_selection_is_the_list_used all_up 0%Q
              "find a summary of the script" None w0)
    as (entry & Hhist & _ & Hrouter & _).
  exists entry. split; [exact Hhist|].
  destruct (Hrouter eq_refl) as (Heq & Hsub & Hnodup).
  split; [rewrite Heq; reflexivity|]. split; [exact Hsub | exact Hnodup].
Defined.

End PipelineExamples.

(** ** The router on examples *)

Section RouterExamples.
Import PyStr Py AgentOrchestrator.

Lemma router_fixed_order_no_duplicates_witness :
  (matches research_keywords "CODE first, then a Report"
   ↔ matches research_keywords "report on the code")
  ∧ (matches doc_keywords "CODE first, then a Report"
     ↔ matches doc_keywords "report on the code")
  ∧ (matches code_keywords "CODE first, then a Report"
     ↔ matches code_keywords "report on the code")
  ∧ _determine_agents_needed "CODE first, then a Report"
    = _determine_agents_needed "report on the code".
Proof.
  assert (∀ kws, any_in kws (lower "CODE first, then a Report")
                 = any_in kws (lower "report on the code") →
                 matches kws "CODE first, then a Report"
                 ↔ matches kws "report on the code") as Hsame.
  { intros kws Heq. rewrite !matches_any_in, Heq. reflexivity. }
  pose proof (Hsame research_keywords eq_refl) as Hr.
  pose proof (Hsame doc_keywords eq_refl) as Hd.
  pose proof (Hsame code_keywords eq_refl) as Hc.
  split; [exact Hr|]. split; [exact Hd|]. split; [exact Hc|].
  exact (proj2 (proj2 (router_fixed_order_no_duplicates "report on the code"))
           "CODE first, then a Report" Hr Hd Hc).
Defined.

Lemma router_default_research_witness :
  (∀ k, k ∈ research_keywords ++ doc_keywords ++ code_keywords →
        ¬ substring_of k (lower "Hello there"))
  ∧ _determine_agents_needed "Hello there" = ["research"].
Proof.
  assert (∀ k, k ∈ research_keywords ++ doc_keywords ++ code_keywords →
               ¬ substring_of k (lower "Hello there")) as Hnone.
  { apply any_in_false. reflexivity. }
  split; [exact Hnone|]. exact (router_default_research "Hello there" Hnone).
Defined.

End RouterExamples.

(** ** The conversation history *)

Section History.
Import PyStr Py AgentOrchestrator.

(** Every entry carries its position as identifier. *)
Lemma reachable_ids_sequential o :
  reachable o →
  ∀ i entry, conversation_history o !! i = Some entry → entry_id entry = i.
Proof.
  induction 1 as [|o ag clock request selected_agents cs Hreach IH].
  - intros i entry H. simpl in H. by rewrite lookup_nil in H.
  - destruct clock as [t|e].
    + rewrite process_user_request_completed. simpl. intros i entry Hi.
      apply lookup_app_Some in Hi as [Hi | [Hlen Hi]].
      * by apply IH.
      * apply list_lookup_singleton_Some in Hi as [Hi <-]. simpl. lia.
    + rewrite process_user_request_failed. simpl. exact IH.
Qed.

(** A slice [l[-n:]] with [1 <= n] keeps the last [min n (len l)] elements. *)
Lemma list_slice_from_last {A} (l : list A) (n : Z) :
  (1 ≤ n)%Z →
  list_slice_from l (- n) = drop (length l - Z.to_nat n) l.
Proof.
  intros Hn. unfold list_slice_from.
  destruct (Z.ltb_spec (- n) 0); [|lia].
  f_equal. lia.
Qed.

(** A slice [l[-0:]] is [l[0:]]: the whole list. *)
Lemma list_slice_from_zero {A} (l : list A) : list_slice_from l (- 0) = l.
Proof. unfold list_slice_from. simpl. rewrite Z.min_l by lia. reflexivity. Qed.

(** With a limit of at least one, [get_conversation_history] does what its
    name says: the [min limit N] most recent entries, oldest first, the last
    of them being the entry numbered [N - 1]. *)
Lemma history_positive_limit o (limit : Z) :
  reachable o → (1 ≤ limit)%Z →
  let N := length (conversation_history o) in
  let recent := get_conversation_history o limit in
  Z.of_nat (length recent) = Z.min limit (Z.of_nat N)
  ∧ recent = drop (N - length recent) (conversation_history o)
  ∧ (∀ i entry, recent !! i = Some entry →
                entry_id entry = N - length recent + i)
  ∧ (0 < N → entry_id <$> last recent = Some (N - 1)).
Proof.
  intros Hreach Hlimit N recent.
  assert (recent = drop (N - Z.to_nat limit) (conversation_history o)) as Hrec.
  { apply list_slice_from_last, Hlimit. }
  assert (length recent = N - (N - Z.to_nat limit)) as Hlen.
  { rewrite Hrec, length_drop. reflexivity. }
  split_and!.
  - lia.
  - rewrite Hrec at 1. f_equal. lia.
  - intros i entry Hi. rewrite Hrec, lookup_drop in Hi.
    apply (reachable_ids_sequential o Hreach) in Hi. lia.
  - intros HN. rewrite last_lookup.
    destruct (recent !! pred (length recent)) as [entry|] eqn:Hi.
    + simpl. f_equal. rewrite Hlen in Hi. rewrite Hrec, lookup_drop in Hi.
      apply (reachable_ids_sequential o Hreach) in Hi. lia.
    + apply lookup_ge_None in Hi. lia.
Qed.

(** With a limit of zero the whole history comes back. *)
Lemma history_limit_zero o :
  get_conversation_history o 0 = conversation_history o.
Proof. apply list_slice_from_zero. Qed.

(** With a negative limit the oldest entries are dropped instead. *)
Lemma history_negative_limit o (k : nat) :
  get_conversation_history o (- Z.of_nat (S k))
  = drop (S k) (conversation_history o).
Proof.
  unfold get_conversation_history, list_slice_from.
  destruct (Z.ltb_spec (- - Z.of_nat (S k)) 0); [lia|].
  destruct (Z.min_spec (- - Z.of_nat (S k)) (Z.of_nat (length (conversation_history o))))
    as [[? ->] | [? ->]].
  - f_equal. lia.
  - rewrite Nat2Z.id, drop_all. symmetry. apply drop_ge. lia.
Qed.

(** C7 at a limit of zero. After one processed request the history holds one
    entry; asked for the most recent zero entries, [get_conversation_history]
    answers with that one entry, where [min 0 1] entries is none. *)
Theorem history_limit_zero_returns_everything :
  let o := self (process_user_request all_up (Ok 0%Q) "hello" None w0).2 in
  reachable o
  ∧ length (conversation_history o) = 1
  ∧ length (get_conversation_history o 0) = 1
  ∧ Z.min 0 (Z.of_nat (length (conversation_history o))) = 0%Z.
Proof.
  split; [apply (reachable_step init all_up (Ok 0%Q) "hello" None []), reachable_init|].
  split_and!; reflexivity.
Qed.

End History.

(** ** The model manager never raises *)

Section ModelManagerProperties.
Import PyStr Py SimpleModelManager.
Variable py_str : pyval → string.

Lemma strip_method_returns_str v r :
  strip_method v = Ok r → ∃ s, r = VStr s.
Proof. destruct v; simpl; intros H; inversion H; eauto. Qed.

(** Whatever the [try] block returns is a string. *)
Lemma generate_body_returns_str pipe prompt kwargs r :
  generate_body py_str pipe prompt kwargs = Ok r → ∃ s, r = VStr s.
Proof.
  unfold generate_body, mbind, mret, res_bind, res_ret. intros H.
  repeat match type of H with
         | match ?x with _ => _ end = _ => destruct x eqn:?; try discriminate H
         end;
    first [ by eapply strip_method_returns_str | inversion H; eauto ].
Qed.

(** C10. [generate_response] answers with a string for every model type and
    prompt, and raises nothing: the text "Model ... not available" when no
    pipeline is loaded for the model type, a text that begins with "Error: "
    when generation raises. [generate_code] puts whatever text it gets into
    a result whose status is "completed": the response of a completed code
    generation can be such a message. *)
Theorem generate_response_always_answers
    (self : SimpleModelManager.t) (model_type prompt : string) (kwargs : pydict) :
  (∃ s, generate_response py_str self model_type prompt kwargs = Ok (VStr s))
  ∧ (pipelines self !! model_type = None →
     generate_response py_str self model_type prompt kwargs
     = Ok (VStr ("Model " +:+ model_type +:+ " not available")))
  ∧ (∀ pipe e,
       pipelines self !! model_type = Some pipe →
       generate_body py_str pipe prompt kwargs = Raise e →
       ∃ s, generate_response py_str self model_type prompt kwargs = Ok (VStr s)
            ∧ s = "Error: " +:+ str_exn e
            ∧ startswith "Error: " s = true)
  ∧ (∀ task language requirements,
       (pipelines self !! "qwen" = None →
        @CodingAgent.generate_code _ (as_model_manager py_str)
          {| CodingAgent.model_manager := self |} task language requirements
        = Ok [("agent", VStr "CodingAgent");
              ("task", VStr task);
              ("language", VStr language);
              ("code_blocks", VList []);
              ("explanation", VStr "Model qwen not available");
              ("full_response", VStr "Model qwen not available");
              ("requirements", VStr requirements);
              ("status", VStr "completed")])
       ∧ (∀ pipe e,
            pipelines self !! "qwen" = Some pipe →
            generate_body py_str pipe
              (CodingAgent.format_coding_prompt task language requirements)
              [("max_tokens", VInt 1024); ("temperature", VFloat (3 # 10))]
            = Raise e →
            contains "``````" ("Error: " +:+ str_exn e) = false →
            ∃ result,
              @CodingAgent.generate_code _ (as_model_manager py_str)
                {| CodingAgent.model_manager := self |} task language requirements
              = Ok result
              ∧ dict_get result "status" = Some (VStr "completed")
              ∧ dict_get result "full_response"
                = Some (VStr ("Error: " +:+ str_exn e)))).
Proof.
  assert (∀ mt p kw, ∃ s, generate_response py_str self mt p kw = Ok (VStr s))
    as Htotal.
  { intros mt p kw. unfold generate_response.
    destruct (pipelines self !! mt) as [pipe|]; [|eauto].
    destruct (generate_body py_str pipe p kw) as [r|e] eqn:Hbody; simpl; [|eauto].
    apply generate_body_returns_str in Hbody as [s ->]. eauto. }
  split_and!.
  - apply Htotal.
  - intros Hnone. unfold generate_response. by rewrite Hnone.
  - intros pipe e Hpipe Hraise. eexists. split_and!; [|reflexivity|].
    + unfold generate_response. rewrite Hpipe, Hraise. reflexivity.
    + apply startswith_append.
  - intros task language requirements. split.
    + intros Hnone.
      unfold CodingAgent.generate_code, CodingAgent.generate_body,
        mm_generate_response, as_model_manager, generate_response,
        CodingAgent.model_type. simpl. rewrite Hnone. reflexivity.
    + intros pipe e Hpipe Hraise Hclean.
      unfold CodingAgent.generate_code, CodingAgent.generate_body,
        mm_generate_response, as_model_manager, generate_response,
        CodingAgent.model_type. simpl. rewrite Hpipe, Hraise.
      unfold CodingAgent._extract_code_blocks, CodingAgent._extract_explanation,
        mbind, mret, res_bind, res_ret, CodingAgent.pattern. simpl.
      unfold findall. rewrite (findall_from_none _ _ Hclean). simpl.
      eexists. split; [reflexivity|]. by split.
Qed.

End ModelManagerProperties.

Section ModelManagerExamples.
Import PyStr Py SimpleModelManager.

Lemma generate_response_always_answers_witness :
  pipelines init !! "qwen" = None
  ∧ generate_response (λ _, "") init "qwen" "Hello" []
    = Ok (VStr "Model qwen not available")
  ∧ pipelines one_broken_model !! "phi3" = Some broken_pipe
  ∧ generate_body (λ _, "") broken_pipe "Hello" [] = Raise out_of_memory
  ∧ generate_response (λ _, "") one_broken_model "phi3" "Hello" []
    = Ok (VStr "Error: CUDA out of memory")
  ∧ @CodingAgent.generate_code _ (as_model_manager (λ _, ""))
      {| CodingAgent.model_manager := init |} "sort a list" "python" ""
    = Ok [("agent", VStr "CodingAgent");
          ("task", VStr "sort a list");
          ("language", VStr "python");
          ("code_blocks", VList []);
          ("explanation", VStr "Model qwen not available");
          ("full_response", VStr "Model qwen not available");
          ("requirements", VStr "");
          ("status", VStr "completed")].
Proof.
  assert (pipelines init !! "qwen" = None) as Hnone by apply lookup_empty.
  assert (pipelines one_broken_model !! "phi3" = Some broken_pipe) as Hsome
    by apply lookup_singleton_eq.
  assert (generate_body (λ _, "") broken_pipe "Hello" [] = Raise out_of_memory)
    as Hraise by reflexivity.
  split; [exact Hnone|]. split.
  { exact (proj1 (proj2 (generate_response_always_answers
                           (λ _, "") init "qwen" "Hello" [])) Hnone). }
  split; [exact Hsome|]. split; [exact Hraise|]. split.
  { destruct (proj1 (proj2 (proj2 (generate_response_always_answers
                (λ _, "") one_broken_model "phi3" "Hello" [])))
                broken_pipe out_of_memory Hsome Hraise) as (s & Hs & -> & _).
    exact Hs. }
  exact (proj1 (proj2 (proj2 (proj2 (generate_response_always_answers
           (λ _, "") init "qwen" "Hello" []))) "sort a list" "python" "") Hnone).
Defined.

End ModelManagerExamples.

(** * Further properties of the orchestrator *)

Section OrchestratorExtras.
Import PyStr Py AgentOrchestrator.

(** A completed run returns the identifier of the one entry it appends, and
    that entry records the request, the results returned and the clock
    reading; a run that fails as a whole appends nothing and reports the
    error text. Either way the earlier entries stay as they were, and nothing
    is raised to the caller. *)
Theorem history_is_append_only ag t e request selected_agents w :
  (∃ results entry,
     process_user_request ag (Ok t) request selected_agents w
     = (Ok (Completed (entry_id entry) request results),
        {| self := {| conversation_history :=
                        conversation_history (self w) ++ [entry] |};
           calls := calls w ++ run_calls ag (Ok t) request selected_agents w |})
     ∧ entry_id entry = length (conversation_history (self w))
     ∧ entry_request entry = request
     ∧ entry_results entry = results
     ∧ entry_timestamp entry = t)
  ∧ process_user_request ag (Raise e) request selected_agents w
    = (Ok (Failed request (str_exn e)),
       {| self := self w;
          calls := calls w ++ run_calls ag (Raise e) request selected_agents w |}).
Proof.
  split.
  - exists (stage_results ag request (effective_selection request selected_agents)),
      (appended_entry ag t request selected_agents w).
    rewrite run_calls_stage, process_user_request_completed. by split_and!.
  - by rewrite run_calls_stage, process_user_request_failed.
Qed.

(** In every state an orchestrator can reach, the identifiers of the history
    are 0, 1, ..., N-1 in this order: none is skipped and none used twice. *)
Theorem conversation_ids_count_up o :
  reachable o →
  entry_id <$> conversation_history o = seq 0 (length (conversation_history o)).
Proof.
  intros Hreach. apply list_eq. intros i.
  rewrite list_lookup_fmap.
  destruct (conversation_history o !! i) as [entry|] eqn:Hi; simpl.
  - rewrite (reachable_ids_sequential o Hreach i entry Hi).
    apply lookup_lt_Some in Hi. by rewrite lookup_seq_lt.
  - apply lookup_ge_None in Hi. by rewrite lookup_seq_ge.
Qed.

Lemma conversation_ids_count_up_witness :
  let o := self (process_user_request research_down (Ok 1%Q) "find the report" None
                   (process_user_request all_up (Ok 0%Q) "hello" None w0).2).2 in
  entry_id <$> conversation_history o = [0; 1].
Proof.
  apply (conversation_ids_count_up
           (self (process_user_request research_down (Ok 1%Q) "find the report" None
                    (process_user_request all_up (Ok 0%Q) "hello" None w0).2).2)).
  apply (reachable_step _ research_down (Ok 1%Q) "find the report" None
           (calls (process_user_request all_up (Ok 0%Q) "hello" None w0).2)).
  apply (reachable_step init all_up (Ok 0%Q) "hello" None []), reachable_init.
Defined.

Lemma history_positive_limit_witness :
  let o := self (process_user_request research_down (Ok 1%Q) "find the report" None
                   (process_user_request all_up (Ok 0%Q) "hello" None w0).2).2 in
  Z.of_nat (length (get_conversation_history o 1)) = Z.min 1 2
  ∧ entry_id <$> last (get_conversation_history o 1) = Some 1.
Proof.
  assert (reachable
            (self (process_user_request research_down (Ok 1%Q) "find the report" None
                     (process_user_request all_up (Ok 0%Q) "hello" None w0).2).2))
    as Hreach.
  { apply (reachable_step _ research_down (Ok 1%Q) "find the report" None
             (calls (process_user_request all_up (Ok 0%Q) "hello" None w0).2)).
    apply (reachable_step init all_up (Ok 0%Q) "hello" None []), reachable_init. }
  destruct (history_positive_limit _ 1 Hreach ltac:(lia)) as (Hlen & _ & _ & Hlast).
  split; [exact Hlen|]. apply Hlast. simpl. lia.
Defined.

(** The keys of the aggregated results are the capabilities that were
    invoked, in the order of invocation, and that order is the fixed one
    whatever the order of the list the run was given. *)
Theorem results_keys_follow_fixed_order ag t request selected_agents w :
  ∃ results,
    (process_user_request ag (Ok t) request selected_agents w).1
    = Ok (Completed (length (conversation_history (self w))) request results)
    ∧ dict_keys results
      = call_name <$> run_calls ag (Ok t) request selected_agents w
    ∧ dict_keys results `sublist_of` priority_order
    ∧ NoDup (dict_keys results).
Proof.
  set (sa := effective_selection request selected_agents).
  exists (stage_results ag request sa).
  rewrite run_calls_stage, process_user_request_completed. fold sa.
  rewrite stage_results_keys, stage_calls_names.
  split_and!; [reflexivity..| |];
    destruct (selected "research" sa), (selected "documentation" sa),
      (selected "coding" sa && _is_coding_request request); simpl;
    first [ by apply (bool_decide_unpack _) | unfold priority_order; repeat constructor ].
Qed.

Lemma stage_results_selected ag request sa1 sa2 :
  (∀ c, c ∈ priority_order → selected c sa1 = selected c sa2) →
  stage_results ag request sa1 = stage_results ag request sa2
  ∧ stage_calls ag request sa1 = stage_calls ag request sa2.
Proof.
  intros Hsame.
  assert (selected "research" sa1 = selected "research" sa2) as Hr.
  { apply Hsame. unfold priority_order. rewrite !elem_of_cons. auto. }
  assert (selected "documentation" sa1 = selected "documentation" sa2) as Hd.
  { apply Hsame. unfold priority_order. rewrite !elem_of_cons. auto. }
  assert (selected "coding" sa1 = selected "coding" sa2) as Hc.
  { apply Hsame. unfold priority_order. rewrite !elem_of_cons. auto. }
  unfold stage_results, stage_calls, documentation_entry, documentation_input,
    coding_entry, research_entry.
  by rewrite Hr, Hd, Hc.
Qed.

(** Two non-empty lists supplied by callers that name the same ones of the
    three capabilities give the same response and the same invocations: the
    order of the list, its repetitions and any other names in it have no
    effect on what is executed. *)
Theorem caller_list_order_is_irrelevant ag t request (l1 l2 : list string) w
    (Hl1 : l1 ≠ []) (Hl2 : l2 ≠ [])
    (Hsame : ∀ c, c ∈ priority_order → (c ∈ l1 ↔ c ∈ l2)) :
  (process_user_request ag (Ok t) request (Some l1) w).1
  = (process_user_request ag (Ok t) request (Some l2) w).1
  ∧ run_calls ag (Ok t) request (Some l1) w
    = run_calls ag (Ok t) request (Some l2) w.
Proof.
  assert (effective_selection request (Some l1) = l1) as E1 by by destruct l1.
  assert (effective_selection request (Some l2) = l2) as E2 by by destruct l2.
  destruct (stage_results_selected ag request l1 l2) as [Hres Hcalls].
  { intros c Hc. unfold selected. apply bool_decide_ext. by apply Hsame. }
  rewrite !run_calls_stage, !process_user_request_completed, E1, E2. simpl.
  by rewrite Hres, Hcalls.
Qed.

Lemma caller_list_order_is_irrelevant_witness :
  (process_user_request all_up (Ok 0%Q) "debug the parser"
     (Some ["coding"; "research"; "translation"]) w0).1
  = (process_user_request all_up (Ok 0%Q) "debug the parser"
       (Some ["research"; "coding"; "coding"]) w0).1
  ∧ run_calls all_up (Ok 0%Q) "debug the parser"
      (Some ["coding"; "research"; "translation"]) w0
    = run_calls all_up (Ok 0%Q) "debug the parser"
        (Some ["research"; "coding"; "coding"]) w0.
Proof.
  apply (caller_list_order_is_irrelevant all_up 0%Q "debug the parser"
           ["coding"; "research"; "translation"] ["research"; "coding"; "coding"] w0);
    [discriminate | discriminate |].
  intros c Hc. unfold priority_order in Hc.
  rewrite !elem_of_cons, elem_of_nil in Hc.
  destruct Hc as [-> | [-> | [-> | []]]];
    rewrite !elem_of_cons, !elem_of_nil; intuition (auto; discriminate).
Defined.

End OrchestratorExtras.

(** * Further properties of the router *)

Section RouterExtras.
Import PyStr Py AgentOrchestrator.

Lemma append_assoc_string (a b c : string) :
  (a +:+ b) +:+ c = a +:+ (b +:+ c).
Proof.
  induction a as [|x a IH]; [reflexivity|].
  rewrite !append_cons. by rewrite IH.
Qed.

Lemma substring_of_trans (a b c : string) :
  substring_of a b → substring_of b c → substring_of a c.
Proof.
  intros (p & q & ->) (p' & q' & ->).
  exists (p' +:+ p), (q +:+ q'). by rewrite !append_assoc_string.
Qed.

Lemma router_selects_coding (request : string) :
  "coding" ∈ _determine_agents_needed request → matches code_keywords request.
Proof.
  rewrite matches_any_in, router_table.
  destruct (any_in research_keywords _), (any_in doc_keywords _),
    (any_in code_keywords _); simpl;
    rewrite ?elem_of_cons, ?elem_of_nil; intuition (auto; discriminate).
Qed.

(** Each name is in the router's answer exactly when its keyword set matches,
    research also when nothing matches; the answer is never empty and holds
    nothing but the three capability names. *)
Theorem router_membership (request : string) :
  ("research" ∈ _determine_agents_needed request
   ↔ matches research_keywords request
     ∨ (¬ matches doc_keywords request ∧ ¬ matches code_keywords request))
  ∧ ("documentation" ∈ _determine_agents_needed request
     ↔ matches doc_keywords request)
  ∧ ("coding" ∈ _determine_agents_needed request
     ↔ matches code_keywords request)
  ∧ _determine_agents_needed request ≠ []
  ∧ ∀ c, c ∈ _determine_agents_needed request → c ∈ priority_order.
Proof.
  rewrite !matches_any_in, router_table. unfold priority_order.
  destruct (any_in research_keywords _), (any_in doc_keywords _),
    (any_in code_keywords _); simpl;
    (split_and!; [| | | discriminate | intros c];
     rewrite ?elem_of_cons, ?elem_of_nil; intuition (auto; discriminate)).
Qed.

Lemma router_membership_witness :
  matches code_keywords "Run the SCRIPT"
  ∧ "coding" ∈ _determine_agents_needed "Run the SCRIPT".
Proof.
  assert (matches code_keywords "Run the SCRIPT") as Hm.
  { apply matches_any_in. reflexivity. }
  split; [exact Hm|].
  exact (proj2 (proj1 (proj2 (proj2 (router_membership "Run the SCRIPT")))) Hm).
Defined.

(** The strict predicate is not a sharpening of the router's coding test. A
    text that passes it either matches the router's coding keywords or
    mentions "method"; and a text that mentions "method" without any coding
    keyword passes the strict predicate while the router leaves coding out,
    so a routed run never invokes the coding agent for it. *)
Theorem strict_predicate_and_router_disagree_on_method
    ag clock (request : string) w :
  (_is_coding_request request = true →
   matches code_keywords request ∨ substring_of "method" (lower request))
  ∧ (substring_of "method" (lower request) →
     ¬ matches code_keywords request →
     _is_coding_request request = true
     ∧ ("coding" ∉ _determine_agents_needed request)
     ∧ ∀ c, c ∈ run_calls ag clock request None w → call_name c ≠ "coding").
Proof.
  split.
  - intros Hstrict. unfold _is_coding_request in Hstrict.
    apply any_in_spec in Hstrict as (k & Hk & Hsub).
    assert (∀ kw, kw ∈ code_keywords → substring_of kw k →
                  matches code_keywords request) as Hvia.
    { intros kw Hkw Hkwk. exists kw. split; [exact Hkw|].
      by apply (substring_of_trans kw k). }
    unfold coding_indicators in Hk.
    rewrite !elem_of_cons, elem_of_nil in Hk.
    destruct Hk as [-> | [-> | [-> | [-> | [-> | [-> | [-> | [-> | [-> | []]]]]]]]]];
      first
        [ by right
        | left;
          let via kw :=
            (apply (Hvia kw);
             [ by apply (bool_decide_unpack _) | by apply contains_spec ]) in
          first [ via "code" | via "function" | via "script" | via "program"
                | via "algorithm" | via "class" | via "debug" ] ].
  - intros Hmethod Hnocode.
    assert (_is_coding_request request = true) as Hstrict.
    { apply any_in_spec. exists "method". split; [|exact Hmethod].
      by apply (bool_decide_unpack _). }
    assert ("coding" ∉ _determine_agents_needed request) as Hnot.
    { intros Hin. apply Hnocode. by apply router_selects_coding. }
    split; [exact Hstrict|]. split; [exact Hnot|].
    intros c Hc Hname. rewrite run_calls_stage in Hc.
    apply elem_of_stage_calls in Hc as [[_ ->] | [[_ ->] | (Hsel & _ & _)]];
      try discriminate.
    apply Hnot. unfold effective_selection in Hsel. simpl in Hsel.
    by apply bool_decide_eq_true_1 in Hsel.
Qed.

Lemma strict_predicate_and_router_disagree_on_method_witness :
  substring_of "method" (lower "Refactor this Method")
  ∧ ¬ matches code_keywords "Refactor this Method"
  ∧ _is_coding_request "Refactor this Method" = true
  ∧ _determine_agents_needed "Refactor this Method" = ["research"]
  ∧ ("coding" ∉ _determine_agents_needed "Refactor this Method").
Proof.
  assert (substring_of "method" (lower "Refactor this Method")) as Hm
    by by apply contains_spec.
  assert (¬ matches code_keywords "Refactor this Method") as Hn.
  { rewrite matches_any_in. discriminate. }
  destruct (proj2 (strict_predicate_and_router_disagree_on_method
                     all_up (Ok 0%Q) "Refactor this Method" w0) Hm Hn)
    as (Hstrict & Hnot & _).
  split; [exact Hm|]. split; [exact Hn|]. split; [exact Hstrict|].
  split; [reflexivity | exact Hnot].
Defined.

End RouterExtras.

(** * Further properties of the model manager *)

Section ModelManagerExtras.
Import PyStr Py SimpleModelManager.
Variable py_str : pyval → string.

Lemma drop_prefix_append (p s : string) :
  drop_prefix (String.length p) (p +:+ s) = s.
Proof. induction p as [|c p IH]; [by destruct s | exact IH]. Qed.

Lemma drop_prefix_short (n : nat) (s : string) :
  String.length s ≤ n → drop_prefix n s = "".
Proof.
  revert n. induction s as [|c s IH]; intros [|n] Hn; simpl in *;
    [reflexivity | reflexivity | lia | apply IH; lia].
Qed.

Lemma dict_get_contains {V} (d : list (string * V)) k v :
  dict_get d k = Some v → dict_contains d k = true.
Proof. unfold dict_contains. by intros ->. Qed.

Lemma dict_get_default_some {V} (d : list (string * V)) k v default :
  dict_get d k = Some v → dict_get_default d k default = v.
Proof. unfold dict_get_default. by intros ->. Qed.

Lemma dict_get_not_contains {V} (d : list (string * V)) k :
  dict_get d k = None → dict_contains d k = false.
Proof. unfold dict_contains. by intros ->. Qed.

(** When the first element of the pipeline's output is a dict whose
    "generated_text" is a string, a "text" key or further elements play no
    part: for an ASCII prompt and an ASCII generated text, the answer is that
    text without its first len(prompt) characters, stripped. The prompt is
    cut off when the pipeline echoes it; an output no longer than the prompt
    gives the empty string. *)
Theorem generated_text_loses_the_prompt_length
    (self : SimpleModelManager.t) model_type pipe prompt kwargs d rest g
    (Hpipe : pipelines self !! model_type = Some pipe)
    (Hout : pipe prompt (dict_get_default kwargs "max_tokens" (VInt 512))
            = Ok (VList (VDict d :: rest)))
    (Hgen : dict_get d "generated_text" = Some (VStr g))
    (Hprompt : is_ascii prompt = true)
    (Hascii : is_ascii g = true) :
  generate_response py_str self model_type prompt kwargs
  = Ok (VStr (strip (drop_prefix (String.length prompt) g)))
  ∧ (∀ completion, g = prompt +:+ completion →
       generate_response py_str self model_type prompt kwargs
       = Ok (VStr (strip completion)))
  ∧ (String.length g ≤ String.length prompt →
       generate_response py_str self model_type prompt kwargs = Ok (VStr "")).
Proof.
  assert (generate_response py_str self model_type prompt kwargs
          = Ok (VStr (strip (drop_prefix (String.length prompt) g)))) as Hres.
  { unfold generate_response, generate_body, mbind, res_bind.
    rewrite Hpipe, Hout. simpl.
    rewrite (dict_get_contains _ _ _ Hgen). simpl. by rewrite Hgen. }
  split; [exact Hres|]. split.
  - intros completion ->. by rewrite Hres, drop_prefix_append.
  - intros Hshort. by rewrite Hres, drop_prefix_short.
Qed.

(** Without a "generated_text" key the "text" key is used in the same way
    (shown for an ASCII prompt and an ASCII text), and with neither key the
    answer is the printed form of the first element. *)
Theorem text_and_printed_fallbacks
    (self : SimpleModelManager.t) model_type pipe prompt kwargs d rest
    (Hpipe : pipelines self !! model_type = Some pipe)
    (Hout : pipe prompt (dict_get_default kwargs "max_tokens" (VInt 512))
            = Ok (VList (VDict d :: rest)))
    (Hgen : dict_get d "generated_text" = None) :
  (∀ t, dict_get d "text" = Some (VStr t) →
        is_ascii prompt = true →
        is_ascii t = true →
        generate_response py_str self model_type prompt kwargs
        = Ok (VStr (strip (drop_prefix (String.length prompt) t))))
  ∧ (dict_get d "text" = None →
     generate_response py_str self model_type prompt kwargs
     = Ok (VStr (py_str (VDict d)))).
Proof.
  split.
  - intros t Htext _ _.
    unfold generate_response, generate_body, mbind, res_bind.
    rewrite Hpipe, Hout. simpl.
    rewrite (dict_get_not_contains _ _ Hgen). simpl.
    rewrite (dict_get_contains _ _ _ Htext). simpl. by rewrite Htext.
  - intros Htext.
    unfold generate_response, generate_body, mbind, res_bind.
    rewrite Hpipe, Hout. simpl.
    rewrite (dict_get_not_contains _ _ Hgen). simpl.
    by rewrite (dict_get_not_contains _ _ Htext).
Qed.

(** A pipeline output of another shape does not raise either, it becomes an
    error text: an empty list, a value that cannot be indexed, and a
    "generated_text" that is a list of messages instead of a string. *)
Theorem malformed_output_becomes_error_text
    (self : SimpleModelManager.t) model_type pipe prompt kwargs
    (Hpipe : pipelines self !! model_type = Some pipe) :
  (pipe prompt (dict_get_default kwargs "max_tokens" (VInt 512)) = Ok (VList []) →
   generate_response py_str self model_type prompt kwargs
   = Ok (VStr "Error: list index out of range"))
  ∧ (pipe prompt (dict_get_default kwargs "max_tokens" (VInt 512)) = Ok VNone →
     generate_response py_str self model_type prompt kwargs
     = Ok (VStr "Error: 'NoneType' object is not subscriptable"))
  ∧ (∀ d rest messages,
       pipe prompt (dict_get_default kwargs "max_tokens" (VInt 512))
       = Ok (VList (VDict d :: rest)) →
       dict_get d "generated_text" = Some (VList messages) →
       generate_response py_str self model_type prompt kwargs
       = Ok (VStr "Error: 'list' object has no attribute 'strip'")).
Proof.
  unfold generate_response, generate_body, mbind, res_bind. rewrite Hpipe.
  split_and!.
  - by intros ->.
  - by intros ->.
  - intros d rest messages -> Hgen. simpl.
    rewrite (dict_get_contains _ _ _ Hgen). simpl. by rewrite Hgen.
Qed.

(** Of the keyword arguments only max_tokens reaches the pipeline, 512 when
    it is absent: a temperature, or any other option, changes nothing. *)
Theorem only_max_tokens_is_forwarded
    (self : SimpleModelManager.t) model_type prompt (kwargs1 kwargs2 : pydict)
    (Hsame : dict_get_default kwargs1 "max_tokens" (VInt 512)
             = dict_get_default kwargs2 "max_tokens" (VInt 512)) :
  generate_response py_str self model_type prompt kwargs1
  = generate_response py_str self model_type prompt kwargs2.
Proof.
  unfold generate_response, generate_body.
  destruct (pipelines self !! model_type) as [pipe|]; [|reflexivity].
  by rewrite Hsame.
Qed.

(** Loading never raises. When the constructor raises, the answer is False
    and the manager is unchanged; when it returns a pipeline, the answer is
    True, requests for that model type are served by the new pipeline (which
    replaces an earlier one), and every other model type is served as
    before. *)
Theorem load_model_serves_the_loaded_type
    (build : string → res pipeline) (self : SimpleModelManager.t)
    (model_name model_type : string) :
  (∀ e, build model_name = Raise e →
        load_model build self model_name model_type = (Ok false, self))
  ∧ (∀ pipe, build model_name = Ok pipe →
       ∃ self',
         load_model build self model_name model_type = (Ok true, self')
         ∧ pipelines self' !! model_type = Some pipe
         ∧ (∀ prompt kwargs,
              generate_response py_str self' model_type prompt kwargs
              = generate_response py_str {| pipelines := {[ model_type := pipe ]} |}
                  model_type prompt kwargs)
         ∧ (∀ other prompt kwargs, other ≠ model_type →
              generate_response py_str self' other prompt kwargs
              = generate_response py_str self other prompt kwargs)).
Proof.
  unfold load_model. split.
  - by intros e ->.
  - intros pipe ->. eexists. split; [reflexivity|]. simpl. split_and!.
    + apply lookup_insert_eq.
    + intros prompt kwargs. unfold generate_response. simpl.
      by rewrite lookup_insert_eq, lookup_singleton_eq.
    + intros other prompt kwargs Hne. unfold generate_response. simpl.
      by rewrite lookup_insert_ne.
Qed.

End ModelManagerExtras.

Section ModelManagerExtrasExamples.
Import PyStr Py SimpleModelManager.

Lemma generated_text_loses_the_prompt_length_witness :
  generate_response (λ _, "") {| pipelines := {[ "qwen" := echo_pipe "  42 " ]} |}
    "qwen" "The answer is" [("temperature", VFloat (3 # 10))]
  = Ok (VStr "42").
Proof.
  exact (proj1 (proj2 (generated_text_loses_the_prompt_length (λ _, "")
           {| pipelines := {[ "qwen" := echo_pipe "  42 " ]} |} "qwen"
           (echo_pipe "  42 ") "The answer is" [("temperature", VFloat (3 # 10))]
           [("generated_text", VStr ("The answer is" +:+ "  42 "))] []
           ("The answer is" +:+ "  42 ") (lookup_singleton_eq _ _) eq_refl eq_refl
           eq_refl eq_refl))
         "  42 " eq_refl).
Defined.

Lemma text_and_printed_fallbacks_witness :
  generate_response (λ _, "<dict>")
    {| pipelines := {[ "qwen" := (λ _ _, Ok (VList [VDict [("text", VStr "Q: hi A: ho ")]])) ]} |}
    "qwen" "Q: hi" []
  = Ok (VStr "A: ho").
Proof.
  exact (proj1 (text_and_printed_fallbacks (λ _, "<dict>")
           {| pipelines := {[ "qwen" := (λ _ _, Ok (VList [VDict [("text", VStr "Q: hi A: ho ")]])) ]} |}
           "qwen" (λ _ _, Ok (VList [VDict [("text", VStr "Q: hi A: ho ")]]))
           "Q: hi" [] [("text", VStr "Q: hi A: ho ")] []
           (lookup_singleton_eq _ _) eq_refl eq_refl) "Q: hi A: ho " eq_refl
           eq_refl eq_refl).
Defined.

Lemma malformed_output_becomes_error_text_witness :
  generate_response (λ _, "")
    {| pipelines := {[ "phi3" := (λ _ _, Ok (VList [])) ]} |} "phi3" "Hello" []
  = Ok (VStr "Error: list index out of range").
Proof.
  exact (proj1 (malformed_output_becomes_error_text (λ _, "")
           {| pipelines := {[ "phi3" := (λ _ _, Ok (VList [])) ]} |}
           "phi3" (λ _ _, Ok (VList [])) "Hello" [] (lookup_singleton_eq _ _))
         eq_refl).
Defined.

Lemma only_max_tokens_is_forwarded_witness :
  generate_response (λ _, "") one_broken_model "phi3" "Hello"
    [("max_tokens", VInt 512); ("temperature", VFloat (7 # 10))]
  = generate_response (λ _, "") one_broken_model "phi3" "Hello" [].
Proof.
  apply (only_max_tokens_is_forwarded (λ _, "") one_broken_model "phi3" "Hello"
           [("max_tokens", VInt 512); ("temperature", VFloat (7 # 10))] []).
  reflexivity.
Defined.

Lemma load_model_serves_the_loaded_type_witness :
  ∃ self',
    load_model (λ _, Ok (echo_pipe " ok")) init "Qwen/Qwen2.5-7B-Instruct" "qwen"
    = (Ok true, self')
    ∧ pipelines self' !! "qwen" = Some (echo_pipe " ok").
Proof.
  destruct (proj2 (load_model_serves_the_loaded_type (λ _, "")
              (λ _, Ok (echo_pipe " ok")) init "Qwen/Qwen2.5-7B-Instruct" "qwen")
              (echo_pipe " ok") eq_refl) as (self' & Hload & Hlookup & _).
  exists self'. by split.
Defined.

End ModelManagerExtrasExamples.

(** * Properties of the search manager *)

Section SearchProperties.
Import PyStr Py WebSearchManager.

Lemma for_each_dicts (items : list pydict) :
  for_each record_of (VDict <$> items) = Ok (normal_record <$> items).
Proof.
  induction items as [|d items IH]; [reflexivity|].
  change (for_each record_of (VDict <$> d :: items))
    with (y ← record_of (VDict d);
          ys ← for_each record_of (VDict <$> items); mret (y :: ys)).
  by rewrite IH.
Qed.

Lemma for_each_not_dict (items : list pyval) :
  (∃ v, v ∈ items ∧ is_dict v = false) →
  ∃ e, for_each record_of items = Raise e.
Proof.
  induction items as [|x items IH]; intros (v & Hv & Hnd).
  - by apply elem_of_nil in Hv.
  - simpl. unfold mbind, res_bind.
    destruct (record_of x) as [y|e] eqn:Hx; [|eauto].
    apply elem_of_cons in Hv as [-> | Hv].
    + destruct x; try discriminate Hnd; discriminate Hx.
    + destruct IH as [e He]; [eauto|]. rewrite He. eauto.
Qed.

Lemma search_web_always_returns
    (ddgs : backend) (self : WebSearchManager.t) (query : string)
    (max_results : option Z) :
  ∃ results, search_web ddgs self query max_results = Ok results.
Proof.
  unfold search_web, search_body, mbind, res_bind.
  destruct (ddgs query _) as [items|e]; simpl; [|eauto].
  destruct (for_each record_of items); simpl; eauto.
Qed.

(** [search_web] never raises. When the client raises it returns the empty
    list; when the client returns dicts it returns one record per result, in
    the same order, each with exactly the keys title, url, snippet and source,
    an absent field being the empty string and the source "DuckDuckGo". *)
Theorem search_web_returns_one_record_per_result
    (ddgs : backend) (self : WebSearchManager.t) (query : string)
    (max_results : option Z) :
  (∃ results, search_web ddgs self query max_results = Ok results)
  ∧ (∀ e, ddgs query (or_default max_results (WebSearchManager.max_results self))
          = Raise e →
          search_web ddgs self query max_results = Ok [])
  ∧ (∀ items : list pydict,
       ddgs query (or_default max_results (WebSearchManager.max_results self))
       = Ok (VDict <$> items) →
       search_web ddgs self query max_results = Ok (normal_record <$> items)
       ∧ length (normal_record <$> items) = length items
       ∧ ∀ i d, items !! i = Some d →
           (normal_record <$> items) !! i
           = Some (VDict [("title", dict_get_default d "title" (VStr ""));
                          ("url", dict_get_default d "href" (VStr ""));
                          ("snippet", dict_get_default d "body" (VStr ""));
                          ("source", VStr "DuckDuckGo")])).
Proof.
  unfold search_web, search_body, mbind, res_bind. split_and!.
  - destruct (ddgs query _) as [items|e]; simpl; [|eauto].
    destruct (for_each record_of items); simpl; eauto.
  - by intros e ->.
  - intros items ->. rewrite for_each_dicts. simpl.
    split; [reflexivity|]. split; [apply length_fmap|].
    intros i d Hi. by rewrite list_lookup_fmap, Hi.
Qed.

Lemma search_web_returns_one_record_per_result_witness :
  search_web two_hits (init None) "coq" None
  = Ok [VDict [("title", VStr "coq"); ("url", VStr "https://example.org");
               ("snippet", VStr "first"); ("source", VStr "DuckDuckGo")];
        VDict [("title", VStr "untitled page"); ("url", VStr "");
               ("snippet", VStr "second"); ("source", VStr "DuckDuckGo")]].
Proof.
  exact (proj1 (proj2 (proj2 (search_web_returns_one_record_per_result
                  two_hits (init None) "coq" None))
                  [[("title", VStr "coq"); ("href", VStr "https://example.org");
                    ("body", VStr "first")];
                   [("title", VStr "untitled page"); ("body", VStr "second")]]
                  eq_refl)).
Defined.

(** One result of the client that is not a dict costs the whole answer: the
    records built before it are dropped and the empty list comes back. *)
Theorem one_malformed_result_discards_all
    (ddgs : backend) (self : WebSearchManager.t) (query : string)
    (max_results : option Z) (items : list pyval) (v : pyval)
    (Hitems : ddgs query (or_default max_results (WebSearchManager.max_results self))
              = Ok items)
    (Hin : v ∈ items) (Hv : is_dict v = false) :
  search_web ddgs self query max_results = Ok [].
Proof.
  unfold search_web, search_body, mbind, res_bind. rewrite Hitems.
  destruct (for_each_not_dict items) as [e ->]; [eauto|reflexivity].
Qed.

Lemma one_malformed_result_discards_all_witness :
  search_web (λ _ _, Ok [VDict [("title", VStr "a")]; VStr "b"]) (init None)
    "coq" None
  = Ok [].
Proof.
  apply (one_malformed_result_discards_all
           (λ _ _, Ok [VDict [("title", VStr "a")]; VStr "b"]) (init None)
           "coq" None [VDict [("title", VStr "a")]; VStr "b"] (VStr "b")).
  - reflexivity.
  - apply elem_of_cons. right. apply elem_of_cons. by left.
  - reflexivity.
Defined.

(** The number of results asked of the client is the caller's max_results,
    except that none and zero both mean the manager's own default. *)
Theorem zero_max_results_means_default
    (ddgs : backend) (self : WebSearchManager.t) (query : string) (n : Z) :
  search_web ddgs self query (Some 0%Z) = search_web ddgs self query None
  ∧ search_web ddgs self query None
    = res_try (results ← ddgs query (WebSearchManager.max_results self);
               for_each record_of results) (λ _, Ok [])
  ∧ (n ≠ 0%Z →
     search_web ddgs self query (Some n)
     = res_try (results ← ddgs query n; for_each record_of results) (λ _, Ok [])).
Proof.
  unfold search_web, search_body, or_default. split_and!; [reflexivity..|].
  intros Hn. by destruct (Z.eqb_spec n 0).
Qed.

Lemma zero_max_results_means_default_witness :
  search_web (λ _ n, Ok (replicate (Z.to_nat n) (VDict []))) (init None) "coq"
    (Some 3%Z)
  = Ok (replicate 3 (normal_record [])).
Proof.
  rewrite (proj2 (proj2 (zero_max_results_means_default
             (λ _ n, Ok (replicate (Z.to_nat n) (VDict []))) (init None) "coq" 3%Z))
             ltac:(discriminate)).
  reflexivity.
Defined.

End SearchProperties.

(** * Further properties of the research agent *)

Section ResearchAgentExtras.
Import PyStr Py.

Lemma search_web_found ddgs ws query max_results :
  WebSearchManager.search_web ddgs ws query max_results
  = Ok (found ddgs ws query max_results).
Proof.
  unfold found.
  destruct (search_web_always_returns ddgs ws query max_results)
    as [results ->]. reflexivity.
Qed.

(** [search_specific_topic] never answers with its error dict. It asks once
    for the topic, with the manager's default number of results, and once per
    subtopic for "topic subtopic", with at most three results each; the
    results come in that order and total_sources is their number. *)
Theorem search_specific_topic_collects_all_results
    (ddgs : WebSearchManager.backend) (ws : WebSearchManager.t)
    (topic : string) (subtopics : option (list string)) :
  let all_results :=
    found ddgs ws topic None
    ++ concat ((λ subtopic, found ddgs ws (topic +:+ " " +:+ subtopic) (Some 3%Z))
               <$> default [] subtopics) in
  ResearchAgent.search_specific_topic ddgs ws topic subtopics
  = Ok [("topic", VStr topic);
        ("subtopics", VList (VStr <$> default [] subtopics));
        ("results", VList all_results);
        ("total_sources", VInt (Z.of_nat (length all_results)))].
Proof.
  assert (∀ subs acc,
            foldl (λ (acc : res (list pyval)) subtopic,
                     all_results ← acc;
                     sub_results ← WebSearchManager.search_web ddgs ws
                                     (topic +:+ " " +:+ subtopic) (Some 3%Z);
                     mret (all_results ++ sub_results))
                  (Ok acc) subs
            = Ok (acc ++ concat ((λ subtopic,
                                    found ddgs ws (topic +:+ " " +:+ subtopic)
                                      (Some 3%Z)) <$> subs))) as Hloop.
  { induction subs as [|sub subs IH]; intros acc; simpl.
    - by rewrite app_nil_r.
    - rewrite search_web_found. unfold mbind, mret, res_bind, res_ret. simpl.
      fold (@mbind res _). rewrite IH. by rewrite <- app_assoc. }
  intros all_results. unfold ResearchAgent.search_specific_topic.
  rewrite search_web_found. unfold mbind at 1, res_bind at 1. simpl.
  destruct subtopics as [[|sub subs]|]; subst all_results.
  - simpl. by rewrite app_nil_r.
  - rewrite Hloop. reflexivity.
  - simpl. by rewrite app_nil_r.
Qed.

End ResearchAgentExtras.

(** * Properties of the agents *)

Section AgentProperties.
Import PyStr Py.
Variable py_str : pyval → string.
Context {M : Type} `{!ModelManager M}.

(** [conduct_research] never raises. Its result names the agent and the
    query; it is either completed, with the sources and their number, or
    failed with the text of the exception, and it is failed with the search's
    exception whenever the search raises. *)
Theorem conduct_research_never_raises (self : ResearchAgent.t M) (query : string) :
  ∃ result,
    ResearchAgent.conduct_research self query = Ok result
    ∧ dict_get result "agent" = Some (VStr "ResearchAgent")
    ∧ dict_get result "query" = Some (VStr query)
    ∧ ((dict_get result "status" = Some (VStr "completed")
        ∧ dict_get result "error" = None
        ∧ ∃ sources,
            dict_get result "sources" = Some (VList sources)
            ∧ dict_get result "source_count"
              = Some (VInt (Z.of_nat (length sources))))
       ∨ (dict_get result "status" = Some (VStr "failed")
          ∧ dict_get result "research_report" = None
          ∧ ∃ e, dict_get result "error" = Some (VStr (str_exn e))))
    ∧ ∀ e, ResearchAgent.async_search (ResearchAgent.search self) query 8 = Raise e →
           result = [("agent", VStr "ResearchAgent"); ("query", VStr query);
                     ("error", VStr (str_exn e)); ("status", VStr "failed")].
Proof.
  unfold ResearchAgent.conduct_research, ResearchAgent.conduct_body,
    mbind, mret, res_bind, res_ret.
  destruct (ResearchAgent.async_search _ query 8) as [sources|e1]; simpl.
  - destruct (ResearchAgent.format_search_results _ sources) as [formatted|e2];
      simpl.
    + destruct (mm_generate_response _ _ _ _) as [report|e3]; simpl;
        eexists; (split; [reflexivity|]); (split; [reflexivity|]);
        (split; [reflexivity|]); (split; [|discriminate]).
      * left. split; [reflexivity|]. split; [reflexivity|]. by exists sources.
      * right. split; [reflexivity|]. split; [reflexivity|]. by exists e3.
    + eexists; (split; [reflexivity|]); (split; [reflexivity|]);
        (split; [reflexivity|]); (split; [|discriminate]).
      right. split; [reflexivity|]. split; [reflexivity|]. by exists e2.
  - eexists; (split; [reflexivity|]); (split; [reflexivity|]);
      (split; [reflexivity|]). split.
    + right. split; [reflexivity|]. split; [reflexivity|]. by exists e1.
    + intros e [= ->]. reflexivity.
Qed.

(** Neither method of the documentation agent raises: each returns a result
    whose status is "completed" or "failed", a failed one carrying the text
    of the exception; a completed summary of an ASCII content records the
    length of that content. *)
Theorem documentation_agent_never_raises (self : DocumentationAgent.t M)
    (research_data : pydict) (doc_type content summary_type : string) :
  (∃ result,
     DocumentationAgent.create_documentation py_str self research_data doc_type
     = Ok result
     ∧ dict_get result "agent" = Some (VStr "DocumentationAgent")
     ∧ (dict_get result "status" = Some (VStr "completed")
        ∨ (dict_get result "status" = Some (VStr "failed")
           ∧ ∃ e, dict_get result "error" = Some (VStr (str_exn e)))))
  ∧ (∃ result,
       DocumentationAgent.summarize_content self content summary_type = Ok result
       ∧ ((dict_get result "status" = Some (VStr "completed")
           ∧ (is_ascii content = true →
              dict_get result "original_length"
              = Some (VInt (Z.of_nat (String.length content)))))
          ∨ (dict_get result "status" = Some (VStr "failed")
             ∧ ∃ e, dict_get result "error" = Some (VStr (str_exn e))))).
Proof.
  split.
  - unfold DocumentationAgent.create_documentation.
    destruct (DocumentationAgent.create_body py_str self research_data doc_type)
      as [result|e] eqn:Hbody; simpl.
    + exists result. split; [reflexivity|].
      unfold DocumentationAgent.create_body, mbind, mret, res_bind, res_ret in Hbody.
      destruct (dict_contains research_data "research_report");
        destruct (mm_generate_response _ _ _ _); try discriminate Hbody;
        destruct (DocumentationAgent._format_final_document _ _ _ _);
        try discriminate Hbody;
        destruct (len _); try discriminate Hbody;
        injection Hbody as <-; split; [reflexivity | by left | reflexivity | by left].
    + eexists. split; [reflexivity|]. split; [reflexivity|]. right.
      split; [reflexivity|]. by exists e.
  - unfold DocumentationAgent.summarize_content,
      DocumentationAgent.summarize_body, mbind, mret, res_bind, res_ret.
    destruct (mm_generate_response _ _ _ _) as [summary|e]; simpl.
    + destruct (len summary) as [n|e]; simpl; eexists; (split; [reflexivity|]).
      * left. by split.
      * right. split; [reflexivity|]. by exists e.
    + eexists. split; [reflexivity|]. right. split; [reflexivity|]. by exists e.
Qed.

(** A research entry without a "research_report" (the failure record of a
    failed research) is documented all the same: its printed form is the
    source content of the prompt, and when the manager answers with a text
    the result is completed, counts no sources and holds the heading, the
    text and the closing line. The heading is shown for an ASCII document
    type. *)
Theorem documentation_of_an_entry_without_report
    (self : DocumentationAgent.t M) (research_data : pydict)
    (doc_type text : string)
    (Hreport : dict_get research_data "research_report" = None)
    (Hanswer :
       mm_generate_response (DocumentationAgent.model_manager self) "mistral"
         (DocumentationAgent.format_prompt py_str
            ("Create a " +:+ doc_type +:+ " document")
            (VStr (py_str (VDict research_data))) doc_type)
         [("max_tokens", VInt 1024); ("temperature", VFloat (5 # 10))]
       = Ok (VStr text))
    (Hascii : is_ascii doc_type = true) :
  DocumentationAgent.create_documentation py_str self research_data doc_type
  = Ok [("agent", VStr "DocumentationAgent");
        ("document_type", VStr doc_type);
        ("documentation",
         VStr ((heading doc_type +:+ text) +:+ DocumentationAgent.footer));
        ("source_research", dict_get_default research_data "query" (VStr ""));
        ("sources_used", VInt 0);
        ("status", VStr "completed")].
Proof.
  unfold DocumentationAgent.create_documentation, DocumentationAgent.create_body.
  rewrite (dict_get_not_contains _ _ Hreport).
  unfold DocumentationAgent.model_type, mbind, res_bind. rewrite Hanswer.
  reflexivity.
Qed.

(** What the "sources" of the research entry do to the documentation, the
    report and the manager's answer being texts: a list of dicts is counted
    in sources_used (and an empty one leaves the document, shown for an ASCII
    document type, at the heading, the text and the closing line); a source
    that is not a dict, and a "sources" that is None, make the result failed,
    with the text of the exception. *)
Theorem documentation_depends_on_the_shape_of_sources
    (self : DocumentationAgent.t M) (research_data : pydict)
    (doc_type text : string) (report : pyval)
    (Hreport : dict_get research_data "research_report" = Some report)
    (Hanswer :
       mm_generate_response (DocumentationAgent.model_manager self) "mistral"
         (DocumentationAgent.format_prompt py_str
            ("Create a " +:+ doc_type +:+ " document") report doc_type)
         [("max_tokens", VInt 1024); ("temperature", VFloat (5 # 10))]
       = Ok (VStr text)) :
  (∀ sources : list pydict,
     dict_get research_data "sources" = Some (VList (VDict <$> sources)) →
     ∃ document,
       DocumentationAgent.create_documentation py_str self research_data doc_type
       = Ok [("agent", VStr "DocumentationAgent");
             ("document_type", VStr doc_type);
             ("documentation", VStr document);
             ("source_research", dict_get_default research_data "query" (VStr ""));
             ("sources_used", VInt (Z.of_nat (length sources)));
             ("status", VStr "completed")]
       ∧ (sources = [] →
          is_ascii doc_type = true →
          document = (heading doc_type +:+ text) +:+ DocumentationAgent.footer))
  ∧ (∀ (s : string) rest,
       dict_get research_data "sources" = Some (VList (VStr s :: rest)) →
       DocumentationAgent.create_documentation py_str self research_data doc_type
       = Ok [("agent", VStr "DocumentationAgent");
             ("error", VStr "'str' object has no attribute 'get'");
             ("status", VStr "failed")])
  ∧ (dict_get research_data "sources" = Some VNone →
     DocumentationAgent.create_documentation py_str self research_data doc_type
     = Ok [("agent", VStr "DocumentationAgent");
           ("error", VStr "object of type 'NoneType' has no len()");
           ("status", VStr "failed")]).
Proof.
  assert (∀ sources i doc,
            ∃ doc', DocumentationAgent.source_lines py_str i (VDict <$> sources) doc
                    = Ok doc') as Hlines.
  { induction sources as [|d sources IH]; intros i doc; simpl; [eauto|].
    apply IH. }
  assert (∀ sources,
            dict_get research_data "sources" = Some sources →
            DocumentationAgent.create_documentation py_str self research_data doc_type
            = res_try
                (final_doc ← DocumentationAgent._format_final_document py_str
                               (VStr text) sources doc_type;
                 sources_used ← len sources;
                 mret [("agent", VStr "DocumentationAgent");
                       ("document_type", VStr doc_type);
                       ("documentation", VStr final_doc);
                       ("source_research",
                        dict_get_default research_data "query" (VStr ""));
                       ("sources_used", VInt sources_used);
                       ("status", VStr "completed")])
                (λ e, Ok [("agent", VStr "DocumentationAgent");
                          ("error", VStr (str_exn e));
                          ("status", VStr "failed")])) as Hcreate.
  { intros sources Hsources.
    unfold DocumentationAgent.create_documentation, DocumentationAgent.create_body.
    rewrite (dict_get_contains _ _ _ Hreport),
      (dict_get_default_some _ _ _ VNone Hreport),
      (dict_get_default_some _ _ _ (VList []) Hsources).
    unfold DocumentationAgent.model_type, mbind at 1, res_bind at 1.
    by rewrite Hanswer. }
  split_and!.
  - intros sources Hsources. rewrite (Hcreate _ Hsources).
    unfold DocumentationAgent._format_final_document, mbind, res_bind. simpl.
    destruct sources as [|d sources].
    + simpl. eexists. split; [reflexivity|]. intros _. reflexivity.
    + simpl.
      match goal with
      | |- context [DocumentationAgent.source_lines py_str ?i ?l ?doc] =>
          destruct (Hlines sources i doc) as [doc' Hdoc'];
          change (DocumentationAgent.source_lines py_str i l doc)
            with (DocumentationAgent.source_lines py_str i (VDict <$> sources) doc);
          rewrite Hdoc'
      end. simpl.
      eexists. split; [|discriminate]. repeat f_equal. apply length_fmap.
  - intros s rest Hsources. by rewrite (Hcreate _ Hsources).
  - intros Hsources. by rewrite (Hcreate _ Hsources).
Qed.

End AgentProperties.

(** * Properties of the coding agent *)

Section CodingAgentProperties.
Import PyStr Py.
Context {M : Type} `{!ModelManager M}.

(** Whatever the response, no code block comes out of it: with an occurrence
    of the pattern the unpacking of the first match raises, without one there
    is nothing to unpack. *)
Lemma extract_code_blocks_only_empty (response : pyval) blocks :
  CodingAgent._extract_code_blocks response = Ok blocks → blocks = [].
Proof.
  unfold CodingAgent._extract_code_blocks, mbind, res_bind.
  destruct response as [| | | |s| |]; try discriminate. simpl.
  destruct (contains CodingAgent.pattern s) eqn:Hc.
  - destruct (findall_some CodingAgent.pattern s) as [rest ->];
      [discriminate | exact Hc |]. discriminate.
  - unfold findall. rewrite (findall_from_none _ _ Hc). simpl. by intros [= <-].
Qed.

(** No method of the coding agent raises: each returns a result whose status
    is "completed" or "failed". A completed result of [generate_code] has an
    empty list of code blocks, whatever the model answered. *)
Theorem coding_agent_never_raises (self : CodingAgent.t M)
    (task language requirements code error_message : string) :
  (∃ result,
     CodingAgent.generate_code self task language requirements = Ok result
     ∧ dict_get result "agent" = Some (VStr "CodingAgent")
     ∧ dict_get result "task" = Some (VStr task)
     ∧ ((dict_get result "status" = Some (VStr "completed")
         ∧ dict_get result "code_blocks" = Some (VList []))
        ∨ (dict_get result "status" = Some (VStr "failed")
           ∧ ∃ e, dict_get result "error" = Some (VStr (str_exn e)))))
  ∧ (∃ result,
       CodingAgent.review_code self code language = Ok result
       ∧ (dict_get result "status" = Some (VStr "completed")
          ∨ dict_get result "status" = Some (VStr "failed")))
  ∧ (∃ result,
       CodingAgent.debug_code self code error_message language = Ok result
       ∧ (dict_get result "status" = Some (VStr "completed")
          ∨ dict_get result "status" = Some (VStr "failed"))).
Proof.
  split_and!.
  - unfold CodingAgent.generate_code, CodingAgent.generate_body,
      mbind, mret, res_bind, res_ret.
    destruct (mm_generate_response _ _ _ _) as [response|e]; simpl.
    + destruct (CodingAgent._extract_code_blocks response) as [blocks|e] eqn:Hb;
        simpl.
      * apply extract_code_blocks_only_empty in Hb as ->.
        destruct (CodingAgent._extract_explanation response) as [x|e]; simpl;
          eexists; (split; [reflexivity|]); (split; [reflexivity|]);
          (split; [reflexivity|]).
        -- left. by split.
        -- right. split; [reflexivity|]. by exists e.
      * eexists; (split; [reflexivity|]); (split; [reflexivity|]);
          (split; [reflexivity|]). right. split; [reflexivity|]. by exists e.
    + eexists; (split; [reflexivity|]); (split; [reflexivity|]);
        (split; [reflexivity|]). right. split; [reflexivity|]. by exists e.
  - unfold CodingAgent.review_code, mbind, mret, res_bind, res_ret.
    destruct (mm_generate_response _ _ _ _); simpl; eexists;
      (split; [reflexivity|]); [by left | by right].
  - unfold CodingAgent.debug_code, mbind, mret, res_bind, res_ret.
    destruct (mm_generate_response _ _ _ _); simpl; eexists;
      (split; [reflexivity|]); [by left | by right].
Qed.


(** The prompts of [review_code] and [debug_code] do not hold the code: two
    calls that differ only in the code get the same answer from the model,
    and their results differ in nothing but the "original_code" field. *)
Theorem review_and_debug_do_not_read_the_code (self : CodingAgent.t M)
    (code1 code2 error_message language : string) :
  (∃ r1 r2,
     CodingAgent.review_code self code1 language = Ok r1
     ∧ CodingAgent.review_code self code2 language = Ok r2
     ∧ ∀ k, k ≠ "original_code" → dict_get r1 k = dict_get r2 k)
  ∧ (∃ r1 r2,
       CodingAgent.debug_code self code1 error_message language = Ok r1
       ∧ CodingAgent.debug_code self code2 error_message language = Ok r2
       ∧ ∀ k, k ≠ "original_code" → dict_get r1 k = dict_get r2 k).
Proof.
  split.
  - unfold CodingAgent.review_code, mbind, mret, res_bind, res_ret.
    destruct (mm_generate_response _ _ _ _); simpl; do 2 eexists;
      (split; [reflexivity|]); (split; [reflexivity|]); [|done].
    intros k Hk. simpl. repeat (case_decide; [done|]). done.
  - unfold CodingAgent.debug_code, mbind, mret, res_bind, res_ret.
    destruct (mm_generate_response _ _ _ _); simpl; do 2 eexists;
      (split; [reflexivity|]); (split; [reflexivity|]); [|done].
    intros k Hk. simpl. repeat (case_decide; [done|]). done.
Qed.

End CodingAgentProperties.

(** * The orchestrator with its own agents *)

Section RegisteredAgents.
Import PyStr Py AgentOrchestrator.
Variable py_str : pyval → string.
Context {M : Type} `{!ModelManager M}.

Lemma conduct_research_answers (self : ResearchAgent.t M) query :
  ∃ r, ResearchAgent.conduct_research self query = Ok r
       ∧ dict_get r "agent" = Some (VStr "ResearchAgent")
       ∧ (dict_get r "status" = Some (VStr "completed")
          ∨ dict_get r "status" = Some (VStr "failed")).
Proof.
  unfold ResearchAgent.conduct_research, ResearchAgent.conduct_body,
    mbind, mret, res_bind, res_ret.
  destruct (ResearchAgent.async_search _ _ _); simpl;
    [destruct (ResearchAgent.format_search_results _ _); simpl;
      [destruct (mm_generate_response _ _ _ _); simpl|]|];
    eexists; (split; [reflexivity|]); (split; [reflexivity|]); auto.
Qed.

Lemma conduct_research_search_raises (self : ResearchAgent.t M) query e :
  ResearchAgent.async_search (ResearchAgent.search self) query 8 = Raise e →
  ResearchAgent.conduct_research self query = Ok (research_failure query e).
Proof.
  intros Hraise.
  unfold ResearchAgent.conduct_research, ResearchAgent.conduct_body,
    mbind, res_bind. by rewrite Hraise.
Qed.

Lemma create_documentation_answers (self : DocumentationAgent.t M) d doc_type :
  ∃ r, DocumentationAgent.create_documentation py_str self d doc_type = Ok r
       ∧ dict_get r "agent" = Some (VStr "DocumentationAgent")
       ∧ (dict_get r "status" = Some (VStr "completed")
          ∨ dict_get r "status" = Some (VStr "failed")).
Proof.
  unfold DocumentationAgent.create_documentation.
  destruct (DocumentationAgent.create_body py_str self d doc_type)
    as [result|e] eqn:Hbody; simpl.
  - exists result. split; [reflexivity|].
    unfold DocumentationAgent.create_body, mbind, mret, res_bind, res_ret in Hbody.
    destruct (dict_contains d "research_report");
      destruct (mm_generate_response _ _ _ _); try discriminate Hbody;
      destruct (DocumentationAgent._format_final_document _ _ _ _);
      try discriminate Hbody;
      destruct (len _); try discriminate Hbody;
      injection Hbody as <-; split; auto.
  - eexists. split; [reflexivity|]. split; auto.
Qed.

Lemma generate_code_answers (self : CodingAgent.t M) task language requirements :
  ∃ r, CodingAgent.generate_code self task language requirements = Ok r
       ∧ dict_get r "agent" = Some (VStr "CodingAgent")
       ∧ (dict_get r "status" = Some (VStr "completed")
          ∨ dict_get r "status" = Some (VStr "failed")).
Proof.
  unfold CodingAgent.generate_code, CodingAgent.generate_body,
    mbind, mret, res_bind, res_ret.
  destruct (mm_generate_response _ _ _ _) as [response|e]; simpl;
    [destruct (CodingAgent._extract_code_blocks response); simpl;
      [destruct (CodingAgent._extract_explanation response); simpl|]|];
    eexists; (split; [reflexivity|]); (split; [reflexivity|]); auto.
Qed.

Lemma stage_results_lookup ag request sa k entry :
  dict_get (stage_results ag request sa) k = Some entry →
  (k = "research" ∧ research_entry ag request sa = Some entry)
  ∨ (k = "documentation" ∧ documentation_entry ag request sa = Some entry)
  ∨ (k = "coding" ∧ coding_entry ag request sa = Some entry).
Proof.
  unfold stage_results, keyed.
  destruct (research_entry ag request sa), (documentation_entry ag request sa),
    (coding_entry ag request sa); simpl;
    repeat (case_decide; [intros [= <-]; subst; auto|]); done.
Qed.

(** With the three agents of the registry, no stage of a run ever stores the
    orchestrator's own failure record: every entry of the aggregated results
    is the answer of its agent, which names the agent and has the status
    "completed" or "failed". *)
Theorem registered_agents_answer_for_themselves
    (reg : registry M) t request selected_agents w :
  ∃ results,
    (process_user_request (behaviour py_str reg) (Ok t) request selected_agents w).1
    = Ok (Completed (length (conversation_history (self w))) request results)
    ∧ ∀ k entry,
        dict_get results k = Some entry →
        (∃ name, dict_get entry "agent" = Some (VStr name))
        ∧ (dict_get entry "status" = Some (VStr "completed")
           ∨ dict_get entry "status" = Some (VStr "failed"))
        ∧ ∀ e, entry ≠ failure e.
Proof.
  set (sa := effective_selection request selected_agents).
  exists (stage_results (behaviour py_str reg) request sa).
  rewrite process_user_request_completed. fold sa. split; [reflexivity|].
  intros k entry Hk.
  assert ((∃ name, dict_get entry "agent" = Some (VStr name))
          ∧ (dict_get entry "status" = Some (VStr "completed")
             ∨ dict_get entry "status" = Some (VStr "failed"))) as [Hagent Hstatus].
  { apply stage_results_lookup in Hk as [[_ Hk] | [[_ Hk] | [_ Hk]]].
    - unfold research_entry in Hk. destruct (selected "research" sa); [|done].
      injection Hk as <-. simpl.
      destruct (conduct_research_answers (research reg) request)
        as (r & -> & Ha & Hs). simpl. eauto.
    - unfold documentation_entry in Hk.
      destruct (selected "documentation" sa); [|done].
      injection Hk as <-. simpl.
      destruct (create_documentation_answers (documentation reg)
                  (documentation_input (behaviour py_str reg) request sa)
                  "research_report") as (r & Hr & Ha & Hs).
      rewrite Hr. simpl. eauto.
    - unfold coding_entry in Hk.
      destruct (selected "coding" sa && _is_coding_request request); [|done].
      injection Hk as <-. simpl.
      destruct (generate_code_answers (coding reg) request "python" "")
        as (r & -> & Ha & Hs). simpl. eauto. }
  split; [exact Hagent|]. split; [exact Hstatus|].
  intros e ->. by destruct Hagent as [name Hname].
Qed.

(** When the search of the research agent raises, in a run with research and
    documentation: the "research" entry is the agent's own failure record
    (agent, query, error, status), the documentation agent is invoked on it,
    and, its manager answering with a text, the "documentation" entry is a
    completed document made from the printed record, with no sources. *)
Theorem failed_search_is_documented
    (reg : registry M) t request selected_agents w e
    (Hresearch : selected "research" (effective_selection request selected_agents) = true)
    (Hdoc : selected "documentation" (effective_selection request selected_agents) = true)
    (Hraise : ResearchAgent.async_search (ResearchAgent.search (research reg))
                request 8 = Raise e) :
  ∃ results,
    (process_user_request (behaviour py_str reg) (Ok t) request selected_agents w).1
    = Ok (Completed (length (conversation_history (self w))) request results)
    ∧ dict_get results "research" = Some (research_failure request e)
    ∧ CallDocumentation (research_failure request e)
        ∈ run_calls (behaviour py_str reg) (Ok t) request selected_agents w
    ∧ ∀ text,
        mm_generate_response (DocumentationAgent.model_manager (documentation reg))
          "mistral"
          (DocumentationAgent.format_prompt py_str
             "Create a research_report document"
             (VStr (py_str (VDict (research_failure request e))))
             "research_report")
          [("max_tokens", VInt 1024); ("temperature", VFloat (5 # 10))]
        = Ok (VStr text) →
        dict_get results "documentation"
        = Some [("agent", VStr "DocumentationAgent");
                ("document_type", VStr "research_report");
                ("documentation",
                 VStr ((heading "research_report" +:+ text)
                       +:+ DocumentationAgent.footer));
                ("source_research", VStr request);
                ("sources_used", VInt 0);
                ("status", VStr "completed")].
Proof.
  set (sa := effective_selection request selected_agents) in *.
  set (ag := behaviour py_str reg).
  assert (research_entry ag request sa = Some (research_failure request e)) as Hentry.
  { unfold research_entry. rewrite Hresearch. simpl.
    by rewrite (conduct_research_search_raises _ _ _ Hraise). }
  assert (documentation_input ag request sa = research_failure request e) as Hin.
  { unfold documentation_input. by rewrite Hentry. }
  exists (stage_results ag request sa).
  rewrite run_calls_stage, process_user_request_completed. fold sa.
  split_and!.
  - reflexivity.
  - by rewrite stage_results_research.
  - apply elem_of_stage_calls. right; left. by rewrite Hin.
  - intros text Hanswer. rewrite stage_results_documentation.
    unfold documentation_entry. rewrite Hdoc, Hin. simpl.
    unfold DocumentationAgent.create_documentation,
      DocumentationAgent.create_body. simpl.
    unfold DocumentationAgent.model_type, mbind, res_bind.
    change ("Create a " +:+ "research_report" +:+ " document")
      with "Create a research_report document".
    by rewrite Hanswer.
Qed.

End RegisteredAgents.

(** * Initialisation *)

Section InitializeProperties.
Import PyStr Py AgentOrchestrator.
Variable py_str : pyval → string.
Variable build : string → res SimpleModelManager.pipeline.
Variable search : ResearchAgent.search_manager.

(** One round of the loading loop, with the simple model manager. *)
Lemma load_one_simple count mm model_name model_type :
  @load_one _ (SimpleModelManager.as_model_loader build) (count, mm)
    (model_name, model_type)
  = match build model_name with
    | Ok pipe =>
        (S count,
         {| SimpleModelManager.pipelines :=
              <[model_type := pipe]> (SimpleModelManager.pipelines mm) |})
    | Raise _ => (count, mm)
    end.
Proof.
  unfold load_one, mm_load_model, SimpleModelManager.as_model_loader,
    SimpleModelManager.load_model.
  by destruct (build model_name).
Qed.

(** Initialisation with the simple model manager tries the three models in
    turn, a failure stopping nothing: every model whose pipeline could be
    built is served afterwards. It answers True exactly when one of the three
    could be built, and then registers the three agents on the manager; when
    none could, it answers False and leaves the orchestrator as it was. *)
Theorem initialize_agents_needs_one_model (self : setup SimpleModelManager.t) :
  let run := @initialize_agents _ (SimpleModelManager.as_model_loader build)
               search self in
  (run.1 = true
   ↔ ∃ model_name model_type pipe,
       (model_name, model_type) ∈ models_to_load ∧ build model_name = Ok pipe)
  ∧ (∀ model_name model_type pipe,
       (model_name, model_type) ∈ models_to_load →
       build model_name = Ok pipe →
       SimpleModelManager.pipelines (model_manager run.2) !! model_type = Some pipe)
  ∧ (run.1 = true →
     agents_registry run.2 = Some (registry_on search (model_manager run.2)))
  ∧ (run.1 = false → run.2 = self).
Proof.
  destruct self as [[pipes] reg].
  unfold initialize_agents, models_to_load. cbn [foldl model_manager].
  rewrite load_one_simple.
  destruct (build "microsoft/Phi-3-mini-4k-instruct") as [p1|e1] eqn:H1;
    rewrite load_one_simple;
    destruct (build "microsoft/DialoGPT-medium") as [p2|e2] eqn:H2;
    rewrite load_one_simple;
    destruct (build "Qwen/Qwen2.5-7B-Instruct") as [p3|e3] eqn:H3; simpl;
    (split_and!;
     [ split;
       [ intros Hok; try discriminate Hok;
         first
           [ exists "microsoft/Phi-3-mini-4k-instruct", "phi3", p1;
             split; [apply elem_of_cons; by left | exact H1]
           | exists "microsoft/DialoGPT-medium", "mistral", p2;
             split; [do 1 (apply elem_of_cons; right); apply elem_of_cons; by left
                    | exact H2]
           | exists "Qwen/Qwen2.5-7B-Instruct", "qwen", p3;
             split; [do 2 (apply elem_of_cons; right); apply elem_of_cons; by left
                    | exact H3] ]
       | intros (name & type & pipe & Hin & Hb);
         rewrite !elem_of_cons, elem_of_nil in Hin;
         destruct Hin as [[= -> ->] | [[= -> ->] | [[= -> ->] | []]]];
         first [ reflexivity
               | by rewrite H1 in Hb | by rewrite H2 in Hb | by rewrite H3 in Hb ] ]
     | intros name type pipe Hin Hb;
       rewrite !elem_of_cons, elem_of_nil in Hin;
       destruct Hin as [[= -> ->] | [[= -> ->] | [[= -> ->] | []]]];
       first [ rewrite H1 in Hb | rewrite H2 in Hb | rewrite H3 in Hb ];
       first [ discriminate Hb | injection Hb as <- ];
       repeat first [ apply lookup_insert_eq | rewrite lookup_insert_ne by done ]
     | first [ reflexivity | discriminate ]
     | first [ reflexivity | discriminate ] ]).
Qed.

(** Initialisation succeeds with some models missing, and an agent whose
    model is missing still completes: with the third model not built and a
    manager that had no "qwen" pipeline before, the coding agent of the
    registry answers every task with a completed result whose response and
    explanation are the text "Model qwen not available". *)
Theorem missing_model_is_reported_as_a_completed_result
    (self : setup SimpleModelManager.t) e (task language requirements : string)
    (Hfresh : SimpleModelManager.pipelines (model_manager self) !! "qwen" = None)
    (Hqwen : build "Qwen/Qwen2.5-7B-Instruct" = Raise e)
    (Hok : (@initialize_agents _ (SimpleModelManager.as_model_loader build)
              search self).1 = true) :
  ∃ reg,
    agents_registry (@initialize_agents _ (SimpleModelManager.as_model_loader build)
                       search self).2 = Some reg
    ∧ @CodingAgent.generate_code _ (SimpleModelManager.as_model_manager py_str)
        (coding reg) task language requirements
      = Ok [("agent", VStr "CodingAgent");
            ("task", VStr task);
            ("language", VStr language);
            ("code_blocks", VList []);
            ("explanation", VStr "Model qwen not available");
            ("full_response", VStr "Model qwen not available");
            ("requirements", VStr requirements);
            ("status", VStr "completed")].
Proof.
  destruct self as [[pipes] reg0]. simpl in Hfresh.
  revert Hok. unfold initialize_agents, models_to_load. cbn [foldl model_manager].
  rewrite load_one_simple.
  destruct (build "microsoft/Phi-3-mini-4k-instruct") as [p1|e1];
    rewrite load_one_simple;
    destruct (build "microsoft/DialoGPT-medium") as [p2|e2];
    rewrite load_one_simple, Hqwen; simpl;
    intros Hok; try discriminate Hok;
    (eexists; split; [reflexivity|]);
    unfold CodingAgent.generate_code, CodingAgent.generate_body,
      mm_generate_response, SimpleModelManager.as_model_manager,
      SimpleModelManager.generate_response, CodingAgent.model_type; simpl;
    rewrite ?lookup_insert_ne by done; by rewrite Hfresh.
Qed.

End InitializeProperties.

(** * The agents and the initialisation on examples *)

Section AgentExamples.
Import PyStr Py AgentOrchestrator.

Lemma conduct_research_never_raises_witness :
  @ResearchAgent.conduct_research _ simple
    {| ResearchAgent.model_manager := SimpleModelManager.init;
       ResearchAgent.search := failing_search |} "quantum dots"
  = Ok [("agent", VStr "ResearchAgent"); ("query", VStr "quantum dots");
        ("error", VStr "timed out"); ("status", VStr "failed")].
Proof.
  destruct (@conduct_research_never_raises _ simple
              {| ResearchAgent.model_manager := SimpleModelManager.init;
                 ResearchAgent.search := failing_search |} "quantum dots")
    as (result & -> & _ & _ & _ & Hfailed).
  f_equal. exact (Hfailed search_timeout eq_refl).
Defined.

Lemma documentation_of_an_entry_without_report_witness :
  @DocumentationAgent.create_documentation printed _ simple
    {| DocumentationAgent.model_manager := SimpleModelManager.init |}
    (failure search_down) "research_report"
  = Ok [("agent", VStr "DocumentationAgent");
        ("document_type", VStr "research_report");
        ("documentation",
         VStr ((heading "research_report" +:+ "Model mistral not available")
               +:+ DocumentationAgent.footer));
        ("source_research", VStr "");
        ("sources_used", VInt 0);
        ("status", VStr "completed")].
Proof.
  exact (@documentation_of_an_entry_without_report printed _ simple
           {| DocumentationAgent.model_manager := SimpleModelManager.init |}
           (failure search_down) "research_report" "Model mistral not available"
           eq_refl eq_refl eq_refl).
Defined.

Lemma documentation_depends_on_the_shape_of_sources_witness :
  @DocumentationAgent.create_documentation printed _ simple
    {| DocumentationAgent.model_manager := SimpleModelManager.init |}
    [("research_report", VStr "Findings"); ("sources", VNone)] "research_report"
  = Ok [("agent", VStr "DocumentationAgent");
        ("error", VStr "object of type 'NoneType' has no len()");
        ("status", VStr "failed")].
Proof.
  exact (proj2 (proj2 (@documentation_depends_on_the_shape_of_sources printed _ simple
           {| DocumentationAgent.model_manager := SimpleModelManager.init |}
           [("research_report", VStr "Findings"); ("sources", VNone)]
           "research_report" "Model mistral not available" (VStr "Findings")
           eq_refl eq_refl)) eq_refl).
Defined.


Lemma registered_agents_answer_for_themselves_witness :
  ∃ results entry,
    (process_user_request
       (@behaviour printed _ simple (registry_on failing_search SimpleModelManager.init))
       (Ok 0%Q) "find papers" None w0).1
    = Ok (Completed 0 "find papers" results)
    ∧ dict_get results "research" = Some entry
    ∧ dict_get entry "agent" = Some (VStr "ResearchAgent").
Proof.
  destruct (@registered_agents_answer_for_themselves printed _ simple
              (registry_on failing_search SimpleModelManager.init)
              0%Q "find papers" None w0) as (results & Hrun & Hentries).
  exists results, (research_failure "find papers" search_timeout).
  assert (dict_get results "research"
          = Some (research_failure "find papers" search_timeout)) as Hentry.
  { vm_compute in Hrun. injection Hrun as <-. reflexivity. }
  split; [exact Hrun|]. split; [exact Hentry|].
  destruct (Hentries _ _ Hentry) as ([name Hname] & _ & _). reflexivity.
Defined.

Lemma failed_search_is_documented_witness :
  ∃ results,
    (process_user_request
       (@behaviour printed _ simple (registry_on failing_search SimpleModelManager.init))
       (Ok 0%Q) "document our research findings" None w0).1
    = Ok (Completed 0 "document our research findings" results)
    ∧ dict_get results "research"
      = Some (research_failure "document our research findings" search_timeout)
    ∧ dict_get results "documentation"
      = Some [("agent", VStr "DocumentationAgent");
              ("document_type", VStr "research_report");
              ("documentation",
               VStr ((heading "research_report" +:+ "Model mistral not available")
                     +:+ DocumentationAgent.footer));
              ("source_research", VStr "document our research findings");
              ("sources_used", VInt 0);
              ("status", VStr "completed")].
Proof.
  destruct (@failed_search_is_documented printed _ simple
              (registry_on failing_search SimpleModelManager.init)
              0%Q "document our research findings" None w0 search_timeout
              eq_refl eq_refl eq_refl)
    as (results & Hrun & Hresearch & _ & Hdoc).
  exists results. split; [exact Hrun|]. split; [exact Hresearch|].
  exact (Hdoc "Model mistral not available" eq_refl).
Defined.

Lemma initialize_agents_needs_one_model_witness :
  (@initialize_agents _ (SimpleModelManager.as_model_loader only_qwen)
     ResearchAgent.quiet_search fresh_setup).1 = true
  ∧ SimpleModelManager.pipelines
      (model_manager
         (@initialize_agents _ (SimpleModelManager.as_model_loader only_qwen)
            ResearchAgent.quiet_search fresh_setup).2) !! "qwen"
    = Some (SimpleModelManager.echo_pipe " ok").
Proof.
  destruct (initialize_agents_needs_one_model only_qwen ResearchAgent.quiet_search
              fresh_setup) as (Hok & Hserved & _ & _).
  assert (("Qwen/Qwen2.5-7B-Instruct", "qwen") ∈ models_to_load) as Hin.
  { unfold models_to_load. do 2 (apply elem_of_cons; right).
    apply elem_of_cons. by left. }
  split.
  - apply Hok. by exists "Qwen/Qwen2.5-7B-Instruct", "qwen",
      (SimpleModelManager.echo_pipe " ok").
  - exact (Hserved _ _ _ Hin eq_refl).
Defined.

Lemma missing_model_is_reported_as_a_completed_result_witness :
  ∃ reg,
    agents_registry
      (@initialize_agents _ (SimpleModelManager.as_model_loader only_phi3)
         ResearchAgent.web_search_manager fresh_setup).2 = Some reg
    ∧ @CodingAgent.generate_code _ simple (coding reg) "sort a list" "python" ""
      = Ok [("agent", VStr "CodingAgent");
            ("task", VStr "sort a list");
            ("language", VStr "python");
            ("code_blocks", VList []);
            ("explanation", VStr "Model qwen not available");
            ("full_response", VStr "Model qwen not available");
            ("requirements", VStr "");
            ("status", VStr "completed")].
Proof.
  exact (missing_model_is_reported_as_a_completed_result printed only_phi3
           ResearchAgent.web_search_manager fresh_setup
           SimpleModelManager.out_of_memory
           "sort a list" "python" "" (lookup_empty _) eq_refl eq_refl).
Defined.

End AgentExamples.

(** * The application *)

Section AppProperties.
Import PyStr Py AgentOrchestrator.






End AppProperties.
